(** * home.js: behaviours of the home page

    A shallow embedding of [Project/static/javascripts/home.js] and the
    properties of its event handlers.

    The script runs once, when the page is ready.  It looks a few elements
    up, attaches listeners to them, starts the DataTables widget (directly
    or after a GET of [/data]), and wires two cosmetic effects.  The
    embedding follows that shape:

    - the DOM is a heap of elements addressed by handles, so that two
      variables of the script may hold the same element;
    - a page is the DOM together with the listener table, the pending
      timers, a clock and the log of the calls that leave the page
      (alert, $.ajax, DataTable, preventDefault, dispatchEvent, observe);
    - every function literal of the script is a function on pages, and
      the closures it passes around are values of an inductive type that
      records the captured variables. *)

From Stdlib Require Import Floats.SpecFloat.
From stdpp Require Import base option numbers list strings gmap.

Local Open Scope string_scope.
Local Open Scope list_scope.

Set Warnings "-register-all".

(** ** JavaScript strings *)

Module JSString.

(** [String.prototype.endsWith(search)] with the default end position:
    the last [search.length] units of [s] are compared with [search]. *)
Definition endsWith (s search : string) : bool :=
  let len := String.length s in
  let searchLength := String.length search in
  if Nat.ltb len searchLength then false
  else String.eqb (String.substring (len - searchLength) searchLength s) search.

(** [s] ends in [suffix]. *)
Definition ends_in (s suffix : string) : Prop := ∃ prefix, s = String.append prefix suffix.

(** The double quote character, for literals that contain it. *)
Definition dquote : string := String (Ascii.ascii_of_nat 34) EmptyString.

End JSString.

(** ** Files *)

(** The two properties of a [File] that the script reads. *)
Record File := mkFile { name : string; type : string }.

#[global] Instance File_eq_dec : EqDecision File.
Proof. solve_decision. Defined.

(** A [FileList]; [files[0]] is [head] and [files.length] is [length]. *)
Definition FileList := list File.

(** ** The DOM *)

Definition handle := nat.

Inductive Child :=
| TextNode (data : string)
| ElementNode (h : handle).

#[global] Instance Child_eq_dec : EqDecision Child.
Proof. solve_decision. Defined.

(** What the model knows of a property of an inline style: the value the
    property was given under its own name, or nothing.  [Derived] stands
    for a value that the browser sets or resets together with another
    property, which the model does not follow. *)
Inductive StyleValue :=
| Declared (v : string)
| Derived.

#[global] Instance StyleValue_eq_dec : EqDecision StyleValue.
Proof. solve_decision. Defined.

Coercion Declared : string >-> StyleValue.

(** An element: what the script reads or writes of it.  [style] holds
    the declarations of the inline style that were made under their own
    names, [files] the FileList of a file input (empty when nothing is
    selected); the elements that receive change events are file
    inputs. *)
Record Element := mkElement {
  localName : string;
  id : string;
  classList : list string;
  style : gmap string string;
  files : FileList;
  childNodes : list Child
}.

(** The heap holds every element the page has created, attached to the
    document or not; a handle is an index into it. *)
Definition Heap := list Element.

Record Document := mkDocument {
  heap : Heap;
  documentElement : handle
}.

Module DOM.

Definition update (f : Element -> Element) (n : handle) (d : Document) : Document :=
  {| heap := alter f n (heap d); documentElement := documentElement d |}.

(** *** DOMTokenList *)

Definition contains (tokens : list string) (t : string) : bool :=
  bool_decide (t ∈ tokens).

Definition tokens_add (t : string) (tokens : list string) : list string :=
  if contains tokens t then tokens else tokens ++ [t].

Definition tokens_remove (t : string) (tokens : list string) : list string :=
  filter (λ x, x ≠ t) tokens.

Definition with_classList (f : list string -> list string) (e : Element) : Element :=
  {| localName := localName e; id := id e; classList := f (classList e);
     style := style e; files := files e; childNodes := childNodes e |}.

(** [el.classList.add(t)] and [el.classList.remove(t)]. *)
Definition classList_add (n : handle) (t : string) : Document -> Document :=
  update (with_classList (tokens_add t)) n.

Definition classList_remove (n : handle) (t : string) : Document -> Document :=
  update (with_classList (tokens_remove t)) n.

Definition hasClass (d : Document) (n : handle) (t : string) : bool :=
  match heap d !! n with
  | Some e => contains (classList e) t
  | None => false
  end.

(** *** CSSStyleDeclaration *)

(** Of the properties the script writes, [background], [borderColor]
    and [animation] are shorthands, and [transform] is not.  A write to a
    shorthand sets or resets other properties with it: the longhands it
    stands for and, with them, the other shorthands that share them.
    What they become is derived by the browser from the value; the model
    does not follow that.  It knows the properties concerned by their
    names, which have the stem of the family in them ([backgroundColor],
    [border-top-color], [webkitAnimationDelay]), and takes every property
    of the family as concerned. *)
Definition family_stems (shorthand : string) : list string :=
  if String.eqb shorthand "background" then ["background"; "Background"]
  else if String.eqb shorthand "borderColor" then ["border"; "Border"]
  else if String.eqb shorthand "animation" then ["animation"; "Animation"]
  else [].

Definition shorthands : list string := ["background"; "borderColor"; "animation"].

(** [search] occurs in [s]. *)
Fixpoint includes (s search : string) : bool :=
  String.prefix search s
  || match s with
     | EmptyString => false
     | String _ rest => includes rest search
     end.

(** A write to [shorthand] sets or resets the property [prop]. *)
Definition resets (shorthand prop : string) : bool :=
  existsb (includes prop) (family_stems shorthand) && negb (String.eqb prop shorthand).

(** [el.style.prop = v], the property under the name the script uses
    for it: the empty string removes the declaration.  The declarations
    of the properties that the write sets or resets are no longer those
    made under their own names.  (The script writes the shorthands
    themselves and [transform], never a longhand.) *)
Definition with_style (prop v : string) (e : Element) : Element :=
  let kept := filter (λ entry, resets prop entry.1 = false) (style e) in
  {| localName := localName e; id := id e; classList := classList e;
     style := if decide (v = "") then delete prop kept
              else <[prop := v]> kept;
     files := files e; childNodes := childNodes e |}.

Definition style_set (n : handle) (prop v : string) : Document -> Document :=
  update (with_style prop v) n.

(** A shorthand that is declared sets or resets [prop]. *)
Definition covered (declarations : gmap string string) (prop : string) : bool :=
  existsb (λ shorthand,
             resets shorthand prop && bool_decide (is_Some (declarations !! shorthand)))
          shorthands.

(** No shorthand that the model knows sets or resets [prop]. *)
Definition stands_alone (prop : string) : bool :=
  forallb (λ shorthand, negb (resets shorthand prop)) shorthands.

(** [el.style.prop]: the value declared under that name; the empty
    string when nothing is declared and nothing that is declared sets the
    property. *)
Definition style_get (d : Document) (n : handle) (prop : string) : StyleValue :=
  match heap d !! n with
  | Some e =>
      match style e !! prop with
      | Some v => Declared v
      | None => if covered (style e) prop then Derived else Declared ""
      end
  | None => Declared ""
  end.

(** *** files *)

Definition with_files (fl : FileList) (e : Element) : Element :=
  {| localName := localName e; id := id e; classList := classList e;
     style := style e; files := fl; childNodes := childNodes e |}.

Definition files_set (n : handle) (fl : FileList) : Document -> Document :=
  update (with_files fl) n.

Definition files_get (d : Document) (n : handle) : FileList :=
  match heap d !! n with
  | Some e => files e
  | None => []
  end.

(** *** textContent *)

(** The setter replaces all the children by one text node (by nothing
    for the empty string); the former children stay in the heap,
    detached. *)
Definition text_children (s : string) : list Child :=
  if decide (s = "") then [] else [TextNode s].

Definition with_textContent (s : string) (e : Element) : Element :=
  {| localName := localName e; id := id e; classList := classList e;
     style := style e; files := files e; childNodes := text_children s |}.

Definition textContent_set (n : handle) (s : string) : Document -> Document :=
  update (with_textContent s) n.

(** The getter concatenates the text of the descendants in tree order.
    [fuel] bounds the depth; a tree is never deeper than its heap. *)
Fixpoint text_of (fuel : nat) (h : Heap) (n : handle) : string :=
  match fuel with
  | O => ""
  | S fuel' =>
      match h !! n with
      | None => ""
      | Some e =>
          foldr (λ c acc,
                   match c with
                   | TextNode s => String.append s acc
                   | ElementNode k => String.append (text_of fuel' h k) acc
                   end) "" (childNodes e)
      end
  end.

Definition textContent (d : Document) (n : handle) : string :=
  text_of (length (heap d)) (heap d) n.

(** The children of [n] are what [textContent = s] leaves. *)
Definition holds_text (d : Document) (n : handle) (s : string) : Prop :=
  ∃ e, heap d !! n = Some e ∧ childNodes e = text_children s.

(** *** Tree order and selectors *)

(** [el.children], as handles. *)
Definition children (e : Element) : list handle :=
  omap (λ c, match c with
             | TextNode _ => None
             | ElementNode k => Some k
             end) (childNodes e).

(** The elements of the subtree of [n] in tree order, each with its
    ancestors, nearest first. *)
Fixpoint subtree (fuel : nat) (h : Heap) (ancestors : list handle) (n : handle)
  : list (handle * list handle) :=
  match fuel with
  | O => []
  | S fuel' =>
      match h !! n with
      | None => []
      | Some e => (n, ancestors) :: flat_map (subtree fuel' h (n :: ancestors)) (children e)
      end
  end.

Definition elements (d : Document) : list (handle * list handle) :=
  subtree (length (heap d)) (heap d) [] (documentElement d).

(** A compound selector: an optional type selector, an optional id
    selector and class selectors. *)
Record Compound := mkCompound {
  sel_type : option string;
  sel_id : option string;
  sel_classes : list string
}.

(** A complex selector built with the descendant combinator. *)
Inductive Selector :=
| Subject (c : Compound)
| Descendant (ancestor : Selector) (c : Compound).

Definition matches_compound (h : Heap) (c : Compound) (n : handle) : bool :=
  match h !! n with
  | None => false
  | Some e =>
      from_option (λ t, String.eqb (localName e) t) true (sel_type c)
      && from_option (λ i, String.eqb (id e) i) true (sel_id c)
      && forallb (contains (classList e)) (sel_classes c)
  end.

Fixpoint matches (h : Heap) (s : Selector) (n : handle) (ancestors : list handle) : bool :=
  match s with
  | Subject c => matches_compound h c n
  | Descendant a c =>
      matches_compound h c n
      && (fix some_ancestor (l : list handle) : bool :=
            match l with
            | [] => false
            | m :: rest => matches h a m rest || some_ancestor rest
            end) ancestors
  end.


Definition first_match (h : Heap) (s : Selector) (l : list (handle * list handle))
  : option handle :=
  fst <$> head (filter (λ p, matches h s p.1 p.2 = true) l).

(** [document.querySelector(s)]. *)
Definition querySelector (d : Document) (s : Selector) : option handle :=
  first_match (heap d) s (elements d).

(** [document.querySelectorAll(s)]. *)
Definition querySelectorAll (d : Document) (s : Selector) : list handle :=
  fst <$> filter (λ p, matches (heap d) s p.1 p.2 = true) (elements d).

(** [document.getElementById(i)]. *)
Definition getElementById (d : Document) (i : string) : option handle :=
  querySelector d (Subject (mkCompound None (Some i) [])).

(** [scope.querySelector(c)] for a compound selector: the first proper
    descendant of [scope] that matches. *)
Definition querySelector_in (d : Document) (scope : handle) (c : Compound) : option handle :=
  first_match (heap d) (Subject c) (tail (subtree (length (heap d)) (heap d) [] scope)).



(** [el.parentElement]: the element that has [n] among its children. *)
Definition parentElement (d : Document) (n : handle) : option handle :=
  fst <$> list_find (λ e, n ∈ children e) (heap d).

Definition id_of (d : Document) (n : handle) : string :=
  match heap d !! n with
  | Some e => id e
  | None => ""
  end.

End DOM.

(** ** JavaScript values *)

(** The values a parsed JSON response is made of, and [undefined], which
    property access produces.  Numbers are IEEE 754 doubles, of which the
    script only asks whether they are zero. *)
Module JS.

Inductive Value :=
| Undefined
| Null
| Bool (b : bool)
| Number (x : spec_float)
| Str (s : string)
| Array (items : list Value)
| Object (members : list (string * Value)).

Inductive Error := TypeError.

(** The outcome of an expression or of a call: a value, or an exception
    thrown. *)
Definition Completion (A : Type) : Type := Error + A.

Definition number_of_nat (n : nat) : spec_float :=
  match n with
  | O => S754_zero false
  | S _ => S754_finite false (Pos.of_nat n) 0
  end.

Definition is_zero (x : spec_float) : bool :=
  match x with
  | S754_zero _ => true
  | _ => false
  end.

Definition is_nan (x : spec_float) : bool :=
  match x with
  | S754_nan => true
  | _ => false
  end.

(** ToBoolean. *)
Definition truthy (v : Value) : bool :=
  match v with
  | Undefined | Null => false
  | Bool b => b
  | Number x => negb (is_zero x) && negb (is_nan x)
  | Str s => negb (String.eqb s "")
  | Array _ | Object _ => true
  end.

(** JSON.parse keeps the last of the members that share a name. *)
Fixpoint member (key : string) (members : list (string * Value)) : option Value :=
  match members with
  | [] => None
  | (k, v) :: rest =>
      match member key rest with
      | Some later => Some later
      | None => if String.eqb k key then Some v else None
      end
  end.

(** [v.key] for the property names the script reads, [columns] and
    [length]: neither is inherited from a prototype, so the result is
    the own property or [undefined].  Reading a property of
    [undefined] or [null] throws. *)
Definition get (v : Value) (key : string) : Completion Value :=
  match v with
  | Undefined | Null => inl TypeError
  | Bool _ | Number _ => inr Undefined
  | Str s =>
      inr (if String.eqb key "length" then Number (number_of_nat (String.length s))
           else Undefined)
  | Array items =>
      inr (if String.eqb key "length" then Number (number_of_nat (length items))
           else Undefined)
  | Object members => inr (default Undefined (member key members))
  end.

(** [v === 0]. *)
Definition strict_equals_zero (v : Value) : bool :=
  match v with
  | Number x => is_zero x
  | _ => false
  end.

End JS.

(** ** The DataTables widget and jQuery.ajax, as the script calls them *)

Module DataTables.

(** The [language] object of the options. *)
Module Language.

Record Paginate := mkPaginate {
  first : string; last : string; next : string; previous : string
}.

Record t := mk {
  search : string;
  lengthMenu : string;
  info : string;
  infoEmpty : string;
  infoFiltered : string;
  paginate : Paginate
}.

End Language.

Record ColumnDef := mkColumnDef { targets : string; defaultContent : string }.

(** The function given as [initComplete]: it adds the class
    [text-center] to the header of every column of the widget. *)
Inductive InitComplete := center_column_headers.

(** An options object; [None] is a property the literal does not
    have. *)
Record Options := mkOptions {
  serverSide : option bool;
  processing : option bool;
  ajax : option string;
  pageLength : option Z;
  lengthMenu : option (list Z);
  autoWidth : option bool;
  responsive : option bool;
  columns : option JS.Value;
  columnDefs : option (list ColumnDef);
  language : option Language.t;
  dom : option string;
  initComplete : option InitComplete
}.

(** What [$(...)] was applied to. *)
Inductive JQuery :=
| of_element (n : handle)
| of_selector (s : string).

End DataTables.

Module Ajax.

(** The function given as [success]. *)
Inductive Callback := init_csvTable.

(** The functions given as [error]: the script has none. *)
Inductive ErrorCallback := .

Record Settings := mkSettings {
  url : string;
  type : string;
  dataType : string;
  success : option Callback;
  error : option ErrorCallback
}.

(** How a request ends: with the parsed body, or with a failure (of
    the transport, of the status or of the parser). *)
Inductive Outcome :=
| Succeeded (json : JS.Value)
| Failed.

End Ajax.

(** ** Pages *)

(** The closures the script registers as event listeners, with the
    variables they capture.  Each is registered for one type of event. *)
Inductive Listener :=
| fileInput_change (fileLabel fileText : handle)
| fileLabel_dragover (fileLabel : handle)
| fileLabel_dragleave (fileLabel : handle)
| fileLabel_drop (fileInput fileLabel : handle)
| actionButton_click.

(** The type each is registered for, the first argument of its
    [addEventListener]. *)
Definition listener_type (l : Listener) : string :=
  match l with
  | fileInput_change _ _ => "change"
  | fileLabel_dragover _ => "dragover"
  | fileLabel_dragleave _ => "dragleave"
  | fileLabel_drop _ _ => "drop"
  | actionButton_click => "click"
  end.

(** The events the browser brings, with what the listeners read of
    them: [e.target] of a change event, [e.dataTransfer.files] of a drop
    event. *)
Inductive Event :=
| ChangeEvent (target : handle)
| DragOverEvent
| DragLeaveEvent
| DropEvent (files : FileList)
| ClickEvent.

Definition event_type (e : Event) : string :=
  match e with
  | ChangeEvent _ => "change"
  | DragOverEvent => "dragover"
  | DragLeaveEvent => "dragleave"
  | DropEvent _ => "drop"
  | ClickEvent => "click"
  end.

(** The arrow function given to [setTimeout], with the [this] it
    captures. *)
Inductive TimerCallback := reset_transform (this : handle).

Record Timer := mkTimer { due : N; callback : TimerCallback }.

(** The calls that leave the page, in the order they are made.  What
    the callee then does, such as the elements the widget builds, is not
    the script's and is not followed. *)
Inductive Call :=
| alert (message : string)
| preventDefault (type : string)
| dispatchEvent (target : handle) (type : string)
| ajax (settings : Ajax.Settings)
| DataTable (target : DataTables.JQuery) (options : DataTables.Options)
| observe (target : handle).

Record Page := mkPage {
  document : Document;
  listeners : list (handle * Listener);
  pending : list Ajax.Settings;
  timers : list Timer;
  now : N;
  observed : list handle;
  log : list Call
}.

(** The page when the script starts. *)
Definition load (d : Document) : Page :=
  {| document := d; listeners := []; pending := []; timers := []; now := 0%N;
     observed := []; log := [] |}.

Definition on_document (f : Document -> Document) (st : Page) : Page :=
  {| document := f (document st); listeners := listeners st; pending := pending st;
     timers := timers st; now := now st; observed := observed st; log := log st |}.

Definition call (c : Call) (st : Page) : Page :=
  {| document := document st; listeners := listeners st; pending := pending st;
     timers := timers st; now := now st; observed := observed st; log := log st ++ [c] |}.

(** The listeners of the element [n] for events of type [type], in the
    order of their registration. *)
Definition listeners_for (n : handle) (type : string) (st : Page) : list (handle * Listener) :=
  filter (λ entry, entry.1 = n ∧ listener_type entry.2 = type) (listeners st).

(** [el.addEventListener(type, listener)], the type being that of the
    listener. *)
Definition addEventListener (n : handle) (l : Listener) (st : Page) : Page :=
  {| document := document st; listeners := listeners st ++ [(n, l)]; pending := pending st;
     timers := timers st; now := now st; observed := observed st; log := log st |}.

(** [setTimeout(callback, delay)], delay in milliseconds. *)
Definition setTimeout (cb : TimerCallback) (delay : N) (st : Page) : Page :=
  {| document := document st; listeners := listeners st; pending := pending st;
     timers := timers st ++ [mkTimer (now st + delay) cb]; now := now st;
     observed := observed st; log := log st |}.

(** [$.ajax(settings)]: the request is sent and stays pending. *)
Definition jQuery_ajax (s : Ajax.Settings) (st : Page) : Page :=
  let st := call (ajax s) st in
  {| document := document st; listeners := listeners st; pending := pending st ++ [s];
     timers := timers st; now := now st; observed := observed st; log := log st |}.

(** ** The script *)

Module Home.

Import DOM.

(** The selectors of the script. *)
Definition class_compound (classes : list string) : Compound :=
  {| sel_type := None; sel_id := None; sel_classes := classes |}.

Definition class_selector (classes : list string) : Selector :=
  Subject (class_compound classes).

(** [.file-input-label], [.file-text], [.file-info], [.filename-text],
    [.btn.large], [.stat-card] *)
Definition file_input_label : Selector := class_selector ["file-input-label"].
Definition file_text : Selector := class_selector ["file-text"].
Definition file_info : Selector := class_selector ["file-info"].
Definition filename_text : Compound := class_compound ["filename-text"].
Definition btn_large : Selector := class_selector ["btn"; "large"].
Definition stat_card : Selector := class_selector ["stat-card"].

(** [#csvTableContainer table] *)
Definition csvTableContainer_table : Selector :=
  Descendant (Subject (mkCompound None (Some "csvTableContainer") []))
             (mkCompound (Some "table") None []).

(** *** The file input *)

(** The listener of [change] on [fileInput]; [target] is [e.target]. *)
Definition fileInput_change_listener (fileLabel fileText target : handle) (st : Page) : Page :=
  match head (files_get (document st) target) with
  | Some file =>
      let st := on_document (textContent_set fileText (name file)) st in
      let st := on_document (classList_add fileLabel "file-selected") st in
      let st := on_document (style_set fileLabel "borderColor" "var(--success)") st in
      let st := on_document (style_set fileLabel "background" "var(--success-light)") st in
      match querySelector (document st) file_info with
      | Some fileInfo =>
          match querySelector_in (document st) fileInfo filename_text with
          | Some filenameText => on_document (textContent_set filenameText (name file)) st
          | None => st
          end
      | None => st
      end
  | None =>
      let st := on_document (textContent_set fileText "Choose CSV File") st in
      let st := on_document (classList_remove fileLabel "file-selected") st in
      let st := on_document (style_set fileLabel "borderColor" "var(--primary)") st in
      on_document (style_set fileLabel "background" "var(--input-bg)") st
  end.

Definition fileLabel_dragover_listener (fileLabel : handle) (st : Page) : Page :=
  let st := call (preventDefault "dragover") st in
  on_document (classList_add fileLabel "drag-over") st.

Definition fileLabel_dragleave_listener (fileLabel : handle) (st : Page) : Page :=
  let st := call (preventDefault "dragleave") st in
  on_document (classList_remove fileLabel "drag-over") st.

(** [target.dispatchEvent(new Event('change'))]: the event does not
    bubble, so the listeners of [change] on [target] itself run, with
    [e.target] being [target]. *)
Definition dispatch_change (target : handle) (st : Page) : Page :=
  foldl (λ st entry,
           match entry.2 with
           | fileInput_change fileLabel fileText =>
               fileInput_change_listener fileLabel fileText target st
           | _ => st
           end)
        (call (dispatchEvent target "change") st)
        (listeners_for target "change" st).

(** The listener of [drop] on [fileLabel]; [files] is
    [e.dataTransfer.files]. *)
Definition fileLabel_drop_listener (fileInput fileLabel : handle) (files : FileList)
    (st : Page) : Page :=
  let st := call (preventDefault "drop") st in
  let st := on_document (classList_remove fileLabel "drag-over") st in
  match files with
  | file :: _ =>
      if String.eqb (type file) "text/csv" || JSString.endsWith (name file) ".csv"
      then
        let st := on_document (files_set fileInput files) st in
        dispatch_change fileInput st
      else call (alert "Please select a CSV file.") st
  | [] => st
  end.

Definition file_input_section (st : Page) : Page :=
  let fileInput := getElementById (document st) "csvFileInput" in
  let fileLabel := querySelector (document st) file_input_label in
  let fileText := querySelector (document st) file_text in
  match fileInput, fileLabel, fileText with
  | Some fileInput, Some fileLabel, Some fileText =>
      let st := addEventListener fileInput (fileInput_change fileLabel fileText) st in
      let st := addEventListener fileLabel (fileLabel_dragover fileLabel) st in
      let st := addEventListener fileLabel (fileLabel_dragleave fileLabel) st in
      addEventListener fileLabel (fileLabel_drop fileInput fileLabel) st
  | _, _, _ => st
  end.

(** *** The table *)

Definition language : DataTables.Language.t :=
  {| DataTables.Language.search := "Search:";
     DataTables.Language.lengthMenu := "Show _MENU_ entries";
     DataTables.Language.info := "Showing _START_ to _END_ of _TOTAL_ entries";
     DataTables.Language.infoEmpty := "Showing 0 to 0 of 0 entries";
     DataTables.Language.infoFiltered := "(filtered from _MAX_ total entries)";
     DataTables.Language.paginate :=
       {| DataTables.Language.first := "First";
          DataTables.Language.last := "Last";
          DataTables.Language.next := "Next";
          DataTables.Language.previous := "Previous" |} |}.

(** [<"top"lf>rt<"bottom"ip><"clear">] *)
Definition dom_layout : string :=
  String.concat JSString.dquote ["<"; "top"; "lf>rt<"; "bottom"; "ip><"; "clear"; ">"].

(** The options of the widget on the table the server rendered. *)
Definition prerendered_options : DataTables.Options :=
  {| DataTables.serverSide := None;
     DataTables.processing := None;
     DataTables.ajax := None;
     DataTables.pageLength := Some 5%Z;
     DataTables.lengthMenu := Some [5; 10; 20; 50]%Z;
     DataTables.autoWidth := Some false;
     DataTables.responsive := Some true;
     DataTables.columns := None;
     DataTables.columnDefs := None;
     DataTables.language := Some language;
     DataTables.dom := Some dom_layout;
     DataTables.initComplete := Some DataTables.center_column_headers |}.

(** The options of the widget that pages through [/data]. *)
Definition serverSide_options (columns : JS.Value) : DataTables.Options :=
  {| DataTables.serverSide := Some true;
     DataTables.processing := Some true;
     DataTables.ajax := Some "/data";
     DataTables.pageLength := Some 5%Z;
     DataTables.lengthMenu := Some [5; 10; 20; 50]%Z;
     DataTables.autoWidth := Some false;
     DataTables.responsive := Some true;
     DataTables.columns := Some columns;
     DataTables.columnDefs :=
       Some [ {| DataTables.targets := "_all"; DataTables.defaultContent := "" |} ];
     DataTables.language := Some language;
     DataTables.dom := Some dom_layout;
     DataTables.initComplete := None |}.

(** The [success] function of the request. *)
Definition init_csvTable (json : JS.Value) (st : Page) : JS.Completion Page :=
  match JS.get json "columns" with
  | inl e => inl e
  | inr columns =>
      if negb (JS.truthy columns) then inr st
      else
        match JS.get columns "length" with
        | inl e => inl e
        | inr len =>
            if JS.strict_equals_zero len then inr st
            else inr (call (DataTable (DataTables.of_selector "#csvTable")
                                      (serverSide_options columns)) st)
        end
  end.

Definition data_request : Ajax.Settings :=
  {| Ajax.url := "/data"; Ajax.type := "GET"; Ajax.dataType := "json";
     Ajax.success := Some Ajax.init_csvTable; Ajax.error := None |}.

(** [a || b] on element references. *)
Definition or_else (a b : option handle) : option handle :=
  match a with
  | Some n => Some n
  | None => b
  end.

(** [document.querySelector("#csvTableContainer table") ||
    document.getElementById("csvTable")] *)
Definition find_tableEl (d : Document) : option handle :=
  or_else (querySelector d csvTableContainer_table) (getElementById d "csvTable").

(** [tableEl.parentElement && tableEl.parentElement.id === "csvTableContainer"] *)
Definition parent_is_csvTableContainer (d : Document) (tableEl : handle) : bool :=
  match parentElement d tableEl with
  | Some parent => String.eqb (id_of d parent) "csvTableContainer"
  | None => false
  end.

Definition table_section (st : Page) : Page :=
  match find_tableEl (document st) with
  | Some tableEl =>
      if parent_is_csvTableContainer (document st) tableEl
      then call (DataTable (DataTables.of_element tableEl) prerendered_options) st
      else jQuery_ajax data_request st
  | None => st
  end.

(** *** The action button *)

(** The listener of [click]; [this] is the element it is registered
    on. *)
Definition actionButton_click_listener (this : handle) (st : Page) : Page :=
  let st := on_document (style_set this "transform" "scale(0.98)") st in
  setTimeout (reset_transform this) 150 st.

Definition action_button_section (st : Page) : Page :=
  match querySelector (document st) btn_large with
  | Some actionButton => addEventListener actionButton actionButton_click st
  | None => st
  end.

(** *** The stat cards *)

(** The function given to the IntersectionObserver; an entry is its
    [target] and its [isIntersecting]. *)
Definition animate_entries (entries : list (handle * bool)) (st : Page) : Page :=
  foldl (λ st entry,
           if entry.2 : bool
           then on_document (style_set entry.1 "animation" "slideInUp 0.6s ease-out") st
           else st)
        st entries.

(** [observer.observe(card)]. *)
Definition observer_observe (card : handle) (st : Page) : Page :=
  let st := call (observe card) st in
  {| document := document st; listeners := listeners st; pending := pending st;
     timers := timers st; now := now st; observed := observed st ++ [card];
     log := log st |}.

Definition stat_cards_section (st : Page) : Page :=
  let statCards := querySelectorAll (document st) stat_card in
  if Nat.ltb 0 (length statCards)
  then foldl (λ st card, observer_observe card st) st statCards
  else st.

(** The function given to [onReady]. *)
Definition ready (st : Page) : Page :=
  let st := file_input_section st in
  let st := table_section st in
  let st := action_button_section st in
  stat_cards_section st.

End Home.

(** ** The browser *)

(** What happens to the page after the script has run: the browser brings
    events to the listeners, time passes and timers fire, requests end,
    and observed elements scroll into view. *)
Module Browser.

Import DOM.

(** A listener is called with the events of the type it was registered
    for. *)
Definition call_listener (l : Listener) (this : handle) (e : Event) (st : Page) : Page :=
  match l, e with
  | fileInput_change fileLabel fileText, ChangeEvent target =>
      Home.fileInput_change_listener fileLabel fileText target st
  | fileLabel_dragover fileLabel, DragOverEvent =>
      Home.fileLabel_dragover_listener fileLabel st
  | fileLabel_dragleave fileLabel, DragLeaveEvent =>
      Home.fileLabel_dragleave_listener fileLabel st
  | fileLabel_drop fileInput fileLabel, DropEvent files =>
      Home.fileLabel_drop_listener fileInput fileLabel files st
  | actionButton_click, ClickEvent =>
      Home.actionButton_click_listener this st
  | _, _ => st
  end.

(** The event [e] reaches the element [current]: its listeners for the
    type of [e] run. *)
Definition deliver (current : handle) (e : Event) (st : Page) : Page :=
  foldl (λ st entry, call_listener entry.2 current e st)
        st (listeners_for current (event_type e) st).

Definition run_timer (cb : TimerCallback) (st : Page) : Page :=
  match cb with
  | reset_transform this => on_document (style_set this "transform" "") st
  end.

(** [dt] milliseconds pass: the timers that are due fire, oldest first
    (the script gives every timer the same delay). *)
Definition elapse (dt : N) (st : Page) : Page :=
  let t := (now st + dt)%N in
  let fired := filter (λ tm, (due tm ≤ t)%N) (timers st) in
  let kept := filter (λ tm, (t < due tm)%N) (timers st) in
  foldl (λ st tm, run_timer (callback tm) st)
        {| document := document st; listeners := listeners st; pending := pending st;
           timers := kept; now := t; observed := observed st; log := log st |}
        fired.

Definition run_callback (cb : Ajax.Callback) (json : JS.Value) (st : Page)
  : JS.Completion Page :=
  match cb with
  | Ajax.init_csvTable => Home.init_csvTable json st
  end.

(** The request [i] is no longer pending. *)
Definition forget (i : nat) (st : Page) : Page :=
  {| document := document st; listeners := listeners st; pending := delete i (pending st);
     timers := timers st; now := now st; observed := observed st; log := log st |}.

(** The [i]-th pending request ends.  jQuery calls [success] with the
    parsed body, or [error]; an exception thrown by the function leaves
    the page as the function found it. *)
Definition settle (i : nat) (outcome : Ajax.Outcome) (st : Page) : Page :=
  match pending st !! i with
  | None => st
  | Some settings =>
      let st := forget i st in
      match outcome with
      | Ajax.Succeeded json =>
          match Ajax.success settings with
          | Some cb =>
              match run_callback cb json st with
              | inr st' => st'
              | inl _ => st
              end
          | None => st
          end
      | Ajax.Failed =>
          match Ajax.error settings with
          | Some cb => match cb with end
          | None => st
          end
      end
  end.

(** The user picks [files] in the file input [input]: the browser
    stores the list and brings a change event. *)
Definition choose (input : handle) (files : FileList) (st : Page) : Page :=
  deliver input (ChangeEvent input) (on_document (files_set input files) st).

(** The observer reports [entries]; their targets are elements it
    observes. *)
Definition intersect (entries : list (handle * bool)) (st : Page) : Page :=
  Home.animate_entries (filter (λ entry, entry.1 ∈ observed st) entries) st.

Inductive Stimulus :=
| Deliver (current : handle) (e : Event)
| Choose (input : handle) (files : FileList)
| Elapse (dt : N)
| Settle (i : nat) (outcome : Ajax.Outcome)
| Intersect (entries : list (handle * bool)).

Definition step (st : Page) (s : Stimulus) : Page :=
  match s with
  | Deliver current e => deliver current e st
  | Choose input files => choose input files st
  | Elapse dt => elapse dt st
  | Settle i outcome => settle i outcome st
  | Intersect entries => intersect entries st
  end.

Definition run (st : Page) (l : list Stimulus) : Page := foldl step st l.

End Browser.

(** ** What no stimulus changes *)

(** [st] has the listeners and the heap size of [st0], and its timers
    were set by click listeners of [st0]. *)
Record frame (st0 st : Page) : Prop := mkFrame {
  frame_listeners : listeners st = listeners st0;
  frame_heap : length (heap (document st)) = length (heap (document st0));
  frame_timers :
    Forall (λ tm, ∃ n, callback tm = reset_transform n
                       ∧ (n, actionButton_click) ∈ listeners st0) (timers st)
}.

(** The document when the change listener looks [.file-info] up, after
    its four writes for the file [file]. *)
Definition selected_document (fileLabel fileText : handle) (file : File) (d : Document)
  : Document :=
  DOM.style_set fileLabel "background" "var(--success-light)"
    (DOM.style_set fileLabel "borderColor" "var(--success)"
       (DOM.classList_add fileLabel "file-selected"
          (DOM.textContent_set fileText (name file) d))).

(** ** Sample pages *)

Module Pages.

Definition element (localName id : string) (classes : list string)
    (children : list Child) : Element :=
  {| localName := localName; id := id; classList := classes; style := ∅;
     files := []; childNodes := children |}.

(** The upload form, a summary line, the table rendered by the server,
    the action button and a stat card:
<<
    0 html
    1   body
    2     label.file-input-label
    3       span.file-text          Choose CSV File
    4       input#csvFileInput
    5     div.file-info
    6       span.filename-text
    7     div#csvTableContainer
    8       table
    9     button.btn.large
    10    div.stat-card
>> *)
Definition upload : Document :=
  {| documentElement := 0;
     heap :=
       [ element "html" "" [] [ElementNode 1];
         element "body" "" []
           [ElementNode 2; ElementNode 5; ElementNode 7; ElementNode 9; ElementNode 10];
         element "label" "" ["file-input-label"] [ElementNode 3; ElementNode 4];
         element "span" "" ["file-text"] [TextNode "Choose CSV File"];
         element "input" "csvFileInput" [] [];
         element "div" "" ["file-info"] [ElementNode 6];
         element "span" "" ["filename-text"] [];
         element "div" "csvTableContainer" [] [ElementNode 8];
         element "table" "" [] [];
         element "button" "" ["btn"; "large"] [TextNode "Analyse"];
         element "div" "" ["stat-card"] [] ] |}.

(** A page whose table is filled from [/data]:
<<
    0 html
    1   body
    2     div.table-wrap
    3       table#csvTable
>> *)
Definition remote : Document :=
  {| documentElement := 0;
     heap :=
       [ element "html" "" [] [ElementNode 1];
         element "body" "" [] [ElementNode 2];
         element "div" "" ["table-wrap"] [ElementNode 3];
         element "table" "csvTable" [] [] ] |}.

(** A page whose table is wrapped once more inside the container, and
    that has no [#csvTable]:
<<
    0 html
    1   body
    2     div#csvTableContainer
    3       div.scroll
    4         table
>> *)
Definition nested : Document :=
  {| documentElement := 0;
     heap :=
       [ element "html" "" [] [ElementNode 1];
         element "body" "" [] [ElementNode 2];
         element "div" "csvTableContainer" [] [ElementNode 3];
         element "div" "" ["scroll"] [ElementNode 4];
         element "table" "" [] [] ] |}.

(** A page with the label and the input but no [.file-text]:
<<
    0 html
    1   body
    2     label.file-input-label
    3       input#csvFileInput
>> *)
Definition no_file_text : Document :=
  {| documentElement := 0;
     heap :=
       [ element "html" "" [] [ElementNode 1];
         element "body" "" [] [ElementNode 2];
         element "label" "" ["file-input-label"] [ElementNode 3];
         element "input" "csvFileInput" [] [] ] |}.


Definition notes_txt : File := {| name := "notes.txt"; type := "text/plain" |}.
Definition sales_csv : File := {| name := "sales.csv"; type := "text/csv" |}.
(** A CSV file as some systems report it: by its extension only. *)
Definition export_csv : File := {| name := "export.csv"; type := "application/vnd.ms-excel" |}.

End Pages.

(** ** The writes and the calls of the script *)

(** One write to the document. *)
Inductive Write :=
| SetTextContent (n : handle) (s : string)
| AddClass (n : handle) (t : string)
| RemoveClass (n : handle) (t : string)
| SetStyle (n : handle) (prop v : string)
| SetFiles (n : handle) (fl : FileList).

#[global] Instance Write_eq_dec : EqDecision Write.
Proof. solve_decision. Defined.

Definition perform (w : Write) : Document → Document :=
  match w with
  | SetTextContent n s => DOM.textContent_set n s
  | AddClass n t => DOM.classList_add n t
  | RemoveClass n t => DOM.classList_remove n t
  | SetStyle n prop v => DOM.style_set n prop v
  | SetFiles n fl => DOM.files_set n fl
  end.

(** The class tokens and the style declarations that the listeners, the
    timers and the observer of the script write. *)
Definition script_classes : list string := ["file-selected"; "drag-over"].

Definition label_styles : list (string * string) :=
  [ ("borderColor", "var(--success)"); ("background", "var(--success-light)");
    ("borderColor", "var(--primary)"); ("background", "var(--input-bg)") ].

Definition button_styles : list (string * string) :=
  [ ("transform", "scale(0.98)"); ("transform", "") ].

Definition card_style : string * string := ("animation", "slideInUp 0.6s ease-out").

(** The writes that can follow the run of the script on [d]: classes
    and colours on the element it took as label, the transform on the
    element it took as button, the animation on the cards it observes,
    text, and files (which the browser writes too, when the user picks
    some). *)
Definition scripted (d : Document) (w : Write) : Prop :=
  match w with
  | SetTextContent _ _ => True
  | SetFiles _ _ => True
  | AddClass n t | RemoveClass n t =>
      DOM.querySelector d Home.file_input_label = Some n ∧ t ∈ script_classes
  | SetStyle n prop v =>
      (DOM.querySelector d Home.file_input_label = Some n ∧ (prop, v) ∈ label_styles)
      ∨ (DOM.querySelector d Home.btn_large = Some n ∧ (prop, v) ∈ button_styles)
      ∨ (n ∈ DOM.querySelectorAll d Home.stat_card ∧ (prop, v) = card_style)
  end.

(** The calls that the listeners make. *)
Definition listener_call (c : Call) : Prop :=
  match c with
  | preventDefault type => type ∈ ["dragover"; "dragleave"; "drop"]
  | dispatchEvent _ type => type = "change"
  | alert message => message = "Please select a CSV file."
  | ajax _ | DataTable _ _ | observe _ => False
  end.

(** The calls a listener makes when it is called with an event. *)
Definition calls_of (l : Listener) (e : Event) : list Call :=
  match l, e with
  | fileLabel_dragover _, DragOverEvent => [preventDefault "dragover"]
  | fileLabel_dragleave _, DragLeaveEvent => [preventDefault "dragleave"]
  | fileLabel_drop fileInput _, DropEvent files =>
      preventDefault "drop" ::
      match files with
      | file :: _ =>
          if String.eqb (type file) "text/csv" || JSString.endsWith (name file) ".csv"
          then [dispatchEvent fileInput "change"]
          else [alert "Please select a CSV file."]
      | [] => []
      end
  | _, _ => []
  end.

(** The requests sent and the widgets started, as a log has them. *)
Definition requests (l : list Call) : list Ajax.Settings :=
  omap (λ c, match c with
             | ajax settings => Some settings
             | _ => None
             end) l.

Definition widgets (l : list Call) : list (DataTables.JQuery * DataTables.Options) :=
  omap (λ c, match c with
             | DataTable target options => Some (target, options)
             | _ => None
             end) l.

(** The page with other timers and another time, as [Browser.elapse]
    makes it before the timers fire. *)
Definition retime (kept : list Timer) (t : N) (st : Page) : Page :=
  {| document := document st; listeners := listeners st; pending := pending st;
     timers := kept; now := t; observed := observed st; log := log st |}.

(** A listener of the page refers to the elements the script took from
    [d]. *)
Definition listener_wired (d : Document) (entry : handle * Listener) : Prop :=
  match entry.2 with
  | fileInput_change fileLabel _
  | fileLabel_dragover fileLabel
  | fileLabel_dragleave fileLabel
  | fileLabel_drop _ fileLabel => DOM.querySelector d Home.file_input_label = Some fileLabel
  | actionButton_click => DOM.querySelector d Home.btn_large = Some entry.1
  end.

(** The listeners, the timers and the observed elements of [st] are
    those of the script run on [d]. *)
Record wired (d : Document) (st : Page) : Prop := mkWired {
  wired_listeners : Forall (listener_wired d) (listeners st);
  wired_timers :
    Forall (λ tm, ∃ b, callback tm = reset_transform b
                       ∧ DOM.querySelector d Home.btn_large = Some b
                       ∧ (due tm ≤ now st + 150)%N) (timers st);
  wired_observed : Forall (λ n, n ∈ DOM.querySelectorAll d Home.stat_card) (observed st)
}.

(** The transform of the button [b] in [st] is what the document [d]
    had, or nothing, or the press, and then a timer is pending. *)
Definition button_press_pending (d : Document) (b : handle) (st : Page) : Prop :=
  length (heap (document st)) = length (heap d)
  ∧ (DOM.style_get (document st) b "transform" = DOM.style_get d b "transform"
     ∨ DOM.style_get (document st) b "transform" = ""
     ∨ (DOM.style_get (document st) b "transform" = "scale(0.98)" ∧ timers st ≠ [])).

(** * Properties *)

(** ** endsWith *)

Section JSString_facts.

Implicit Types (s t p search : string).

Lemma append_cons c s t : String.append (String c s) t = String c (String.append s t).
Proof. reflexivity. Qed.

Lemma substring_all t : String.substring 0 (String.length t) t = t.
Proof. induction t as [|c t IH]; simpl; [done | by rewrite IH]. Qed.

Lemma substring_append p t :
  String.substring (String.length p) (String.length t) (String.append p t) = t.
Proof.
  induction p as [|c p IH]; [apply substring_all|].
  rewrite append_cons. simpl. apply IH.
Qed.

Lemma length_append p t :
  String.length (String.append p t) = String.length p + String.length t.
Proof. induction p as [|c p IH]; [done|]. rewrite append_cons. simpl. by rewrite IH. Qed.

Lemma substring_split (n : nat) s :
  (n ≤ String.length s)%nat →
  s = String.append (String.substring 0 n s)
                    (String.substring n (String.length s - n) s).
Proof.
  revert s. induction n as [|n IH]; intros s Hn.
  - rewrite Nat.sub_0_r, substring_all. by destruct s.
  - destruct s as [|c s]; simpl in Hn; [lia|].
    simpl. rewrite append_cons. f_equal. apply IH. lia.
Qed.

(** [endsWith] decides whether a string ends in another. *)
Lemma endsWith_spec s search :
  JSString.endsWith s search = true ↔ JSString.ends_in s search.
Proof.
  unfold JSString.endsWith, JSString.ends_in. split.
  - destruct (Nat.ltb_spec (String.length s) (String.length search)) as [|Hle]; [done|].
    intros Heq%String.eqb_eq.
    exists (String.substring 0 (String.length s - String.length search) s).
    etransitivity;
      [apply (substring_split (String.length s - String.length search)); lia|].
    f_equal.
    replace (String.length s - (String.length s - String.length search))
      with (String.length search) by lia.
    exact Heq.
  - intros [prefix ->]. rewrite length_append.
    destruct (Nat.ltb_spec (String.length prefix + String.length search)
                           (String.length search)); [lia|].
    apply String.eqb_eq.
    replace (String.length prefix + String.length search - String.length search)
      with (String.length prefix) by lia.
    apply substring_append.
Qed.

End JSString_facts.

(** ** Lists *)

Section list_facts.

Lemma filter_nil_all {A} (Q : A → Prop) `{!∀ x, Decision (Q x)} (l : list A) :
  filter Q l = [] → filter (λ x, ¬ Q x) l = l.
Proof.
  induction l as [|x l IH]; [done|]. rewrite !filter_cons.
  destruct (decide (Q x)) as [Hx|Hx]; [done|]. intros Hnil.
  rewrite decide_True by done. by rewrite IH.
Qed.

Lemma filter_none {A} (Q : A → Prop) `{!∀ x, Decision (Q x)} (l : list A) :
  (∀ x, x ∈ l → ¬ Q x) → filter Q l = [].
Proof.
  induction l as [|x l IH]; intros Hl; [done|].
  rewrite filter_cons_False by (apply Hl; by left). apply IH. intros y Hy. apply Hl. by right.
Qed.

Lemma filter_all {A} (Q : A → Prop) `{!∀ x, Decision (Q x)} (l : list A) :
  (∀ x, x ∈ l → Q x) → filter Q l = l.
Proof.
  induction l as [|x l IH]; intros Hl; [done|].
  rewrite filter_cons_True by (apply Hl; by left). f_equal. apply IH.
  intros y Hy. apply Hl. by right.
Qed.



End list_facts.

(** ** The DOM operations *)

Section DOM_facts.

Import DOM.

Implicit Types (d : Document) (n m : handle) (e : Element) (t u s : string).

Lemma lookup_update f n m d :
  heap (update f n d) !! m = if decide (n = m) then f <$> heap d !! m else heap d !! m.
Proof.
  unfold update; simpl. case_decide as Hnm.
  - subst m. apply list_lookup_alter_eq.
  - by apply list_lookup_alter_ne.
Qed.

Lemma length_update f n d : length (heap (update f n d)) = length (heap d).
Proof. apply length_alter. Qed.

(** A write that keeps a field of every element keeps what is read
    through that field. *)
Lemma files_get_update f n d m :
  (∀ e, files (f e) = files e) → files_get (update f n d) m = files_get d m.
Proof.
  intros Hf. unfold files_get. rewrite lookup_update.
  case_decide; [|done]. destruct (heap d !! m); simpl; [apply Hf | done].
Qed.

Lemma hasClass_update f n d m t :
  (∀ e, classList (f e) = classList e) → hasClass (update f n d) m t = hasClass d m t.
Proof.
  intros Hf. unfold hasClass. rewrite lookup_update.
  case_decide; [|done]. destruct (heap d !! m); simpl; [by rewrite Hf | done].
Qed.

Lemma style_get_update f n d m p :
  (∀ e, style (f e) = style e) → style_get (update f n d) m p = style_get d m p.
Proof.
  intros Hf. unfold style_get. rewrite lookup_update.
  case_decide; [|done]. destruct (heap d !! m); simpl; [by rewrite Hf | done].
Qed.

(** *** classList *)

Lemma contains_tokens_add t tokens : contains (tokens_add t tokens) t = true.
Proof.
  unfold tokens_add. destruct (contains tokens t) eqn:E; [done|].
  unfold contains. apply bool_decide_eq_true, elem_of_app. right.
  by apply list_elem_of_singleton.
Qed.

Lemma contains_tokens_add_ne t u tokens :
  t ≠ u → contains (tokens_add t tokens) u = contains tokens u.
Proof.
  intros Htu. unfold tokens_add. destruct (contains tokens t); [done|].
  unfold contains. apply bool_decide_ext.
  rewrite elem_of_app, list_elem_of_singleton.
  split; [intros [?|?]; [done | congruence] | auto].
Qed.

Lemma contains_tokens_remove t tokens : contains (tokens_remove t tokens) t = false.
Proof.
  unfold contains, tokens_remove. apply bool_decide_eq_false.
  rewrite list_elem_of_filter. tauto.
Qed.

Lemma contains_tokens_remove_ne t u tokens :
  t ≠ u → contains (tokens_remove t tokens) u = contains tokens u.
Proof.
  intros Htu. unfold contains, tokens_remove. apply bool_decide_ext.
  rewrite list_elem_of_filter.
  split; [by intros [_ ?] | intros; split; [congruence | done]].
Qed.

Lemma hasClass_classList_add n t d :
  is_Some (heap d !! n) → hasClass (classList_add n t d) n t = true.
Proof.
  intros [e He]. unfold hasClass, classList_add. rewrite lookup_update, decide_True by done.
  rewrite He. simpl. apply contains_tokens_add.
Qed.

Lemma hasClass_classList_add_ne n t d m u :
  t ≠ u → hasClass (classList_add n t d) m u = hasClass d m u.
Proof.
  intros Htu. unfold hasClass, classList_add. rewrite lookup_update.
  case_decide; [|done]. destruct (heap d !! m); simpl; [|done].
  by apply contains_tokens_add_ne.
Qed.

Lemma hasClass_classList_remove n t d : hasClass (classList_remove n t d) n t = false.
Proof.
  unfold hasClass, classList_remove. rewrite lookup_update, decide_True by done.
  destruct (heap d !! n); simpl; [|done]. apply contains_tokens_remove.
Qed.

Lemma hasClass_classList_remove_ne n t d m u :
  t ≠ u → hasClass (classList_remove n t d) m u = hasClass d m u.
Proof.
  intros Htu. unfold hasClass, classList_remove. rewrite lookup_update.
  case_decide; [|done]. destruct (heap d !! m); simpl; [|done].
  by apply contains_tokens_remove_ne.
Qed.

(** *** style *)

Lemma resets_shorthand p shorthand : shorthand ∈ shorthands → resets p shorthand = false.
Proof.
  unfold shorthands. rewrite !elem_of_cons, elem_of_nil. intros Hin.
  unfold resets, family_stems.
  destruct (String.eqb_spec p "background") as [->|_];
    [by destruct Hin as [-> | [-> | [-> | []]]]|].
  destruct (String.eqb_spec p "borderColor") as [->|_];
    [by destruct Hin as [-> | [-> | [-> | []]]]|].
  destruct (String.eqb_spec p "animation") as [->|_];
    [by destruct Hin as [-> | [-> | [-> | []]]]|].
  done.
Qed.

(** A write keeps the declarations it does not set or reset. *)
Lemma lookup_with_style p v e k :
  k ≠ p → resets p k = false → style (with_style p v e) !! k = style e !! k.
Proof.
  intros Hk Hr. unfold with_style. cbn [style].
  assert (filter (λ entry : string * string, resets p entry.1 = false) (style e) !! k
          = style e !! k) as Hkept.
  { destruct (style e !! k) as [x|] eqn:E.
    - by apply map_lookup_filter_Some.
    - apply map_lookup_filter_None. by left. }
  case_decide; [by rewrite lookup_delete_ne | by rewrite lookup_insert_ne].
Qed.

Lemma covered_with_style p v e q :
  resets p q = false → covered (style (with_style p v e)) q = covered (style e) q.
Proof.
  intros Hr.
  assert (∀ shorthand,
            shorthand ∈ shorthands →
            resets shorthand q && bool_decide (is_Some (style (with_style p v e) !! shorthand))
            = resets shorthand q && bool_decide (is_Some (style e !! shorthand))) as Hsame.
  { intros shorthand Hin. destruct (resets shorthand q) eqn:E; [|done].
    rewrite lookup_with_style; [done | | by apply resets_shorthand].
    intros ->. congruence. }
  unfold covered, shorthands. cbn [existsb].
  by rewrite !Hsame by (unfold shorthands; rewrite !elem_of_cons; tauto).
Qed.

Lemma style_get_style_set n p v d :
  is_Some (heap d !! n) → v ≠ "" → style_get (style_set n p v d) n p = v.
Proof.
  intros [e He] Hv. unfold style_get, style_set. rewrite lookup_update, decide_True by done.
  rewrite He. cbn [fmap option_fmap option_map with_style style].
  by rewrite decide_False, lookup_insert_eq.
Qed.

(** The empty string removes the declaration; the property then reads
    as the empty string when no shorthand sets it. *)
Lemma style_get_style_set_empty n p d :
  is_Some (heap d !! n) → stands_alone p = true →
  style_get (style_set n p "" d) n p = "".
Proof.
  intros [e He] Halone. unfold style_get, style_set. rewrite lookup_update, decide_True by done.
  rewrite He. cbn [fmap option_fmap option_map with_style style].
  rewrite decide_True, lookup_delete_eq by done.
  assert (covered (delete p (filter (λ entry : string * string, resets p entry.1 = false)
                               (style e))) p = false) as ->; [|done].
  unfold covered. apply not_true_is_false. intros (shorthand & Hin & Hc)%existsb_exists.
  unfold stands_alone in Halone. rewrite forallb_forall in Halone.
  specialize (Halone _ Hin).
  apply andb_true_iff in Hc as [Hc _]. by rewrite Hc in Halone.
Qed.

Lemma style_get_style_set_ne n p v d m q :
  p ≠ q → resets p q = false → style_get (style_set n p v d) m q = style_get d m q.
Proof.
  intros Hpq Hr. unfold style_get, style_set. rewrite lookup_update.
  case_decide; [|done]. destruct (heap d !! m) as [e|]; [|done].
  cbn [fmap option_fmap option_map].
  by rewrite lookup_with_style, covered_with_style.
Qed.

Lemma style_get_style_set_other n p v d m q :
  n ≠ m → style_get (style_set n p v d) m q = style_get d m q.
Proof. intros Hnm. unfold style_get, style_set. by rewrite lookup_update, decide_False. Qed.

(** *** files *)

Lemma files_get_files_set n fl d :
  is_Some (heap d !! n) → files_get (files_set n fl d) n = fl.
Proof.
  intros [e He]. unfold files_get, files_set. rewrite lookup_update, decide_True by done.
  by rewrite He.
Qed.

(** *** textContent *)

Lemma append_empty_r s : String.append s "" = s.
Proof.
  induction s as [|c s IH]; [done|].
  change (String c (String.append s "") = String c s). by rewrite IH.
Qed.

Lemma holds_text_textContent d n s : holds_text d n s → textContent d n = s.
Proof.
  intros (e & He & Hc). unfold textContent.
  assert (n < length (heap d)) as Hlt by (eapply lookup_lt_Some; eauto).
  destruct (length (heap d)) as [|k]; [lia|]. simpl. rewrite He, Hc.
  unfold text_children. case_decide; simpl; [done | apply append_empty_r].
Qed.

Lemma holds_text_textContent_set n s d :
  is_Some (heap d !! n) → holds_text (textContent_set n s d) n s.
Proof.
  intros [e He]. unfold holds_text, textContent_set.
  rewrite lookup_update, decide_True by done. rewrite He. simpl. eauto.
Qed.

Lemma holds_text_update f m d n s :
  (∀ e, childNodes (f e) = childNodes e) →
  holds_text d n s → holds_text (update f m d) n s.
Proof.
  intros Hf (e & He & Hc). unfold holds_text. rewrite lookup_update.
  case_decide; [|eauto]. rewrite He. simpl. eexists; split; [done|]. by rewrite Hf.
Qed.

(** Writing the same text into any element keeps it. *)
Lemma holds_text_textContent_set_same m d n s :
  holds_text d n s → holds_text (textContent_set m s d) n s.
Proof.
  intros (e & He & Hc). unfold holds_text, textContent_set. rewrite lookup_update.
  case_decide; [|eauto]. rewrite He. simpl. eauto.
Qed.

Lemma textContent_textContent_set n s d :
  is_Some (heap d !! n) → textContent (textContent_set n s d) n = s.
Proof. intros. by apply holds_text_textContent, holds_text_textContent_set. Qed.

(** *** Lookups return elements of the heap *)

Lemma matches_compound_is_Some d c n :
  matches_compound (heap d) c n = true → is_Some (heap d !! n).
Proof. unfold matches_compound. destruct (heap d !! n); [eauto | done]. Qed.

Lemma matches_is_Some d sel n ancestors :
  matches (heap d) sel n ancestors = true → is_Some (heap d !! n).
Proof.
  destruct sel as [c|a c]; simpl.
  - apply matches_compound_is_Some.
  - intros [H _]%andb_true_iff. by eapply matches_compound_is_Some.
Qed.

Lemma first_match_is_Some d sel l n :
  first_match (heap d) sel l = Some n → is_Some (heap d !! n).
Proof.
  unfold first_match. intros H.
  destruct (head _) as [[k anc]|] eqn:Hh; simplify_eq/=.
  apply head_Some_elem_of, list_elem_of_filter in Hh as [Hm _].
  by eapply matches_is_Some.
Qed.

Lemma querySelector_is_Some d sel n :
  querySelector d sel = Some n → is_Some (heap d !! n).
Proof. apply first_match_is_Some. Qed.

Lemma querySelector_in_is_Some d scope c n :
  querySelector_in d scope c = Some n → is_Some (heap d !! n).
Proof. apply first_match_is_Some. Qed.

Lemma getElementById_is_Some d i n :
  getElementById d i = Some n → is_Some (heap d !! n).
Proof. apply querySelector_is_Some. Qed.

End DOM_facts.

(** ** The frame of the listeners *)

Section frame_facts.

Import DOM.

Implicit Types (st : Page) (n : handle).

Lemma frame_refl st : timers st = [] → frame st st.
Proof. intros Ht. split; [done | done | rewrite Ht; constructor]. Qed.

Lemma frame_on_document f st0 st :
  (∀ d, length (heap (f d)) = length (heap d)) →
  frame st0 st → frame st0 (on_document f st).
Proof. intros Hf [Hl Hh Ht]. split; simpl; [done | by rewrite Hf | done]. Qed.

Lemma frame_update f n st0 st : frame st0 st → frame st0 (on_document (update f n) st).
Proof. apply frame_on_document. intros. apply length_update. Qed.

Lemma frame_call c st0 st : frame st0 st → frame st0 (call c st).
Proof. intros [Hl Hh Ht]. by split. Qed.

Lemma frame_setTimeout n delay st0 st :
  (n, actionButton_click) ∈ listeners st0 →
  frame st0 st → frame st0 (setTimeout (reset_transform n) delay st).
Proof.
  intros Hn [Hl Hh Ht]. split; simpl; [done | done |].
  apply Forall_app. split; [done|]. repeat constructor. eauto.
Qed.

Lemma frame_foldl {A} (f : Page → A → Page) (l : list A) st0 st :
  (∀ x st, x ∈ l → frame st0 st → frame st0 (f st x)) →
  frame st0 st → frame st0 (foldl f st l).
Proof.
  revert st. induction l as [|x l IH]; intros st Hf Hst; simpl; [done|].
  apply IH.
  - intros y st' Hy. apply Hf. by right.
  - apply Hf; [by left | done].
Qed.

Lemma frame_change fileLabel fileText target st0 st :
  frame st0 st → frame st0 (Home.fileInput_change_listener fileLabel fileText target st).
Proof.
  intros H. unfold Home.fileInput_change_listener.
  destruct (head _).
  - repeat (first [ apply frame_update | case_match ]); done.
  - by repeat apply frame_update.
Qed.

Lemma frame_dispatch_change target st0 st :
  frame st0 st → frame st0 (Home.dispatch_change target st).
Proof.
  intros H. unfold Home.dispatch_change. apply frame_foldl.
  - intros [k l] st' _ H'. destruct l; simpl; try done. by apply frame_change.
  - by apply frame_call.
Qed.

Lemma frame_drop fileInput fileLabel fl st0 st :
  frame st0 st → frame st0 (Home.fileLabel_drop_listener fileInput fileLabel fl st).
Proof.
  intros H. unfold Home.fileLabel_drop_listener.
  destruct fl as [|file rest].
  - by apply frame_update, frame_call.
  - destruct (_ || _).
    + by apply frame_dispatch_change, frame_update, frame_update, frame_call.
    + by apply frame_call, frame_update, frame_call.
Qed.

Lemma frame_call_listener l this e st0 st :
  (this, l) ∈ listeners st0 →
  frame st0 st → frame st0 (Browser.call_listener l this e st).
Proof.
  intros Hl H. destruct l, e; simpl; try done.
  - by apply frame_change.
  - by apply frame_update, frame_call.
  - by apply frame_update, frame_call.
  - by apply frame_drop.
  - by apply frame_setTimeout, frame_update.
Qed.

Lemma elem_of_listeners_for entry n ty st :
  entry ∈ listeners_for n ty st ↔
  (entry.1 = n ∧ listener_type entry.2 = ty) ∧ entry ∈ listeners st.
Proof. unfold listeners_for. by rewrite list_elem_of_filter. Qed.

Lemma frame_deliver current e st0 st :
  frame st0 st → frame st0 (Browser.deliver current e st).
Proof.
  intros H. unfold Browser.deliver. apply frame_foldl; [|done].
  intros [k l] st' [[Hk _] Hin]%elem_of_listeners_for H'. simpl in *. subst k.
  apply frame_call_listener; [|done]. by rewrite <- (frame_listeners _ _ H).
Qed.

Lemma frame_elapse dt st0 st : frame st0 st → frame st0 (Browser.elapse dt st).
Proof.
  intros [Hl Hh Ht]. unfold Browser.elapse. apply frame_foldl.
  - intros [t [k]] st' _ H'. simpl. by apply frame_update.
  - split; simpl; [done | done |].
    rewrite Forall_forall in Ht |- *. intros tm [_ Hin]%list_elem_of_filter. auto.
Qed.

Lemma frame_init_csvTable json st0 st st' :
  Home.init_csvTable json st = inr st' → frame st0 st → frame st0 st'.
Proof.
  unfold Home.init_csvTable. intros Hrun H.
  repeat case_match; simplify_eq; try done. by apply frame_call.
Qed.

Lemma frame_settle i outcome st0 st : frame st0 st → frame st0 (Browser.settle i outcome st).
Proof.
  intros H. unfold Browser.settle.
  destruct (pending st !! i) as [settings|]; [|done].
  set (st1 := Browser.forget i st).
  assert (frame st0 st1) as H1 by (destruct H; by split).
  destruct outcome as [json|].
  - destruct (Ajax.success settings) as [[]|]; [|done]. simpl.
    destruct (Home.init_csvTable json st1) eqn:E; [done|].
    by eapply frame_init_csvTable.
  - destruct (Ajax.error settings) as [[]|]. done.
Qed.

Lemma frame_animate_entries entries st0 st :
  frame st0 st → frame st0 (Home.animate_entries entries st).
Proof.
  intros H. unfold Home.animate_entries. apply frame_foldl; [|done].
  intros [k b] st' _ H'. simpl. destruct b; [by apply frame_update | done].
Qed.

Lemma frame_step s st0 st : frame st0 st → frame st0 (Browser.step st s).
Proof.
  intros H. destruct s; simpl.
  - by apply frame_deliver.
  - by apply frame_deliver, frame_update.
  - by apply frame_elapse.
  - by apply frame_settle.
  - by apply frame_animate_entries.
Qed.

Lemma frame_run stimuli st0 st : frame st0 st → frame st0 (Browser.run st stimuli).
Proof.
  revert st. induction stimuli as [|s stimuli IH]; intros st H; simpl; [done|].
  by apply IH, frame_step.
Qed.

End frame_facts.

(** ** What the script leaves when it has run *)

Section ready_facts.

Import DOM.

Implicit Types (d : Document) (st : Page).

Lemma observe_all_frame cards st :
  let st' := foldl (λ st card, Home.observer_observe card st) st cards in
  document st' = document st ∧ listeners st' = listeners st
  ∧ timers st' = timers st ∧ pending st' = pending st.
Proof.
  revert st. induction cards as [|c cards IH]; intros st; simpl; [done|].
  destruct (IH (Home.observer_observe c st)) as (-> & -> & -> & ->). done.
Qed.

Lemma stat_cards_section_frame st :
  let st' := Home.stat_cards_section st in
  document st' = document st ∧ listeners st' = listeners st
  ∧ timers st' = timers st ∧ pending st' = pending st.
Proof.
  unfold Home.stat_cards_section. case_match; [apply observe_all_frame | done].
Qed.

Lemma file_input_section_frame st :
  let st' := Home.file_input_section st in
  document st' = document st ∧ timers st' = timers st
  ∧ pending st' = pending st ∧ log st' = log st.
Proof. unfold Home.file_input_section. by repeat case_match. Qed.

Lemma table_section_frame st :
  let st' := Home.table_section st in
  document st' = document st ∧ listeners st' = listeners st ∧ timers st' = timers st.
Proof. unfold Home.table_section. by repeat case_match. Qed.

Lemma action_button_section_frame st :
  let st' := Home.action_button_section st in
  document st' = document st ∧ timers st' = timers st
  ∧ pending st' = pending st ∧ log st' = log st.
Proof. unfold Home.action_button_section. by repeat case_match. Qed.

Lemma document_ready st : document (Home.ready st) = document st.
Proof.
  unfold Home.ready.
  destruct (stat_cards_section_frame
              (Home.action_button_section (Home.table_section (Home.file_input_section st))))
    as (-> & _).
  destruct (action_button_section_frame (Home.table_section (Home.file_input_section st)))
    as (-> & _).
  destruct (table_section_frame (Home.file_input_section st)) as (-> & _).
  by destruct (file_input_section_frame st) as (-> & _).
Qed.

Lemma timers_ready st : timers (Home.ready st) = timers st.
Proof.
  unfold Home.ready.
  destruct (stat_cards_section_frame
              (Home.action_button_section (Home.table_section (Home.file_input_section st))))
    as (_ & _ & -> & _).
  destruct (action_button_section_frame (Home.table_section (Home.file_input_section st)))
    as (_ & -> & _).
  destruct (table_section_frame (Home.file_input_section st)) as (_ & _ & ->).
  by destruct (file_input_section_frame st) as (_ & -> & _).
Qed.

(** The listeners after the script are those of the file input section
    followed by that of the action button. *)
Lemma listeners_ready d :
  listeners (Home.ready (load d)) =
  listeners (Home.file_input_section (load d))
  ++ listeners (Home.action_button_section (load d)).
Proof.
  unfold Home.ready.
  destruct (stat_cards_section_frame
              (Home.action_button_section
                 (Home.table_section (Home.file_input_section (load d)))))
    as (_ & -> & _).
  destruct (table_section_frame (Home.file_input_section (load d))) as (Hd & Hl & _).
  destruct (file_input_section_frame (load d)) as (Hd' & _).
  unfold Home.action_button_section. rewrite Hd, Hd'. simpl.
  destruct (querySelector d Home.btn_large); simpl; rewrite Hl; [done|].
  by rewrite app_nil_r.
Qed.

Lemma file_input_listeners d fileInput fileLabel fileText :
  getElementById d "csvFileInput" = Some fileInput →
  querySelector d Home.file_input_label = Some fileLabel →
  querySelector d Home.file_text = Some fileText →
  listeners (Home.file_input_section (load d)) =
  [ (fileInput, fileInput_change fileLabel fileText);
    (fileLabel, fileLabel_dragover fileLabel);
    (fileLabel, fileLabel_dragleave fileLabel);
    (fileLabel, fileLabel_drop fileInput fileLabel) ].
Proof. intros Hi Hl Ht. unfold Home.file_input_section. simpl. by rewrite Hi, Hl, Ht. Qed.

Lemma action_button_listeners d :
  listeners (Home.action_button_section (load d)) =
  match querySelector d Home.btn_large with
  | Some actionButton => [(actionButton, actionButton_click)]
  | None => []
  end.
Proof. unfold Home.action_button_section. simpl. by case_match. Qed.

(** Every page reached from the script's has its frame. *)
Lemma frame_reached d stimuli :
  frame (Home.ready (load d)) (Browser.run (Home.ready (load d)) stimuli).
Proof. apply frame_run, frame_refl. by rewrite timers_ready. Qed.

Lemma reached_is_Some d stimuli n :
  is_Some (heap d !! n) →
  is_Some (heap (document (Browser.run (Home.ready (load d)) stimuli)) !! n).
Proof.
  rewrite !lookup_lt_is_Some.
  rewrite (frame_heap _ _ (frame_reached d stimuli)), document_ready. done.
Qed.

End ready_facts.

(** ** The listeners of an element *)

(** Decides the filter of [listeners_for] on a table that is written
    out. *)
Ltac listeners_for_tac :=
  unfold listeners_for;
  repeat (rewrite filter_cons; simpl;
          let H := fresh "Hdec" in
          case_decide as H;
          [ try (by destruct H as [_ H]) | try (by exfalso; apply H) ]);
  rewrite ?filter_nil; try done.

Section file_input_listeners_for.

Import DOM.

Context (d : Document) (fileInput fileLabel fileText : handle).
Context (HfileInput : getElementById d "csvFileInput" = Some fileInput).
Context (HfileLabel : querySelector d Home.file_input_label = Some fileLabel).
Context (HfileText : querySelector d Home.file_text = Some fileText).

Lemma listeners_script :
  listeners (Home.ready (load d)) =
  [ (fileInput, fileInput_change fileLabel fileText);
    (fileLabel, fileLabel_dragover fileLabel);
    (fileLabel, fileLabel_dragleave fileLabel);
    (fileLabel, fileLabel_drop fileInput fileLabel) ]
  ++ match querySelector d Home.btn_large with
     | Some actionButton => [(actionButton, actionButton_click)]
     | None => []
     end.
Proof.
  rewrite listeners_ready.
  by rewrite (file_input_listeners d fileInput fileLabel fileText), action_button_listeners.
Qed.

Lemma listeners_for_change st :
  listeners st = listeners (Home.ready (load d)) →
  listeners_for fileInput "change" st = [(fileInput, fileInput_change fileLabel fileText)].
Proof.
  intros Hl. unfold listeners_for. rewrite Hl, listeners_script.
  destruct (querySelector d Home.btn_large); simpl; listeners_for_tac.
Qed.

Lemma listeners_for_dragover st :
  listeners st = listeners (Home.ready (load d)) →
  listeners_for fileLabel "dragover" st = [(fileLabel, fileLabel_dragover fileLabel)].
Proof.
  intros Hl. unfold listeners_for. rewrite Hl, listeners_script.
  destruct (querySelector d Home.btn_large); simpl; listeners_for_tac.
Qed.

Lemma listeners_for_dragleave st :
  listeners st = listeners (Home.ready (load d)) →
  listeners_for fileLabel "dragleave" st = [(fileLabel, fileLabel_dragleave fileLabel)].
Proof.
  intros Hl. unfold listeners_for. rewrite Hl, listeners_script.
  destruct (querySelector d Home.btn_large); simpl; listeners_for_tac.
Qed.

Lemma listeners_for_drop st :
  listeners st = listeners (Home.ready (load d)) →
  listeners_for fileLabel "drop" st = [(fileLabel, fileLabel_drop fileInput fileLabel)].
Proof.
  intros Hl. unfold listeners_for. rewrite Hl, listeners_script.
  destruct (querySelector d Home.btn_large); simpl; listeners_for_tac.
Qed.

End file_input_listeners_for.

(** ** The change listener *)

Section change_listener_facts.

Import DOM.

Implicit Types (d : Document) (st : Page) (n : handle).

Ltac unfold_setters :=
  unfold selected_document, classList_add, classList_remove, style_set,
    textContent_set, files_set in *.

(** The listener writes text, classes and styles only. *)
Lemma change_listener_frame fileLabel fileText target st :
  let st' := Home.fileInput_change_listener fileLabel fileText target st in
  log st' = log st
  ∧ (∀ n, files_get (document st') n = files_get (document st) n)
  ∧ (∀ n t, t ≠ "file-selected" →
            hasClass (document st') n t = hasClass (document st) n t).
Proof.
  unfold Home.fileInput_change_listener.
  destruct (head _) as [file|]; simpl.
  - repeat case_match; simpl; (split; [done|]); split; intros.
    all: unfold_setters.
    all: rewrite ?files_get_update by done; try done.
    all: repeat (rewrite hasClass_update by done).
    all: fold (classList_add fileLabel "file-selected").
    all: rewrite hasClass_classList_add_ne by done.
    all: by repeat (rewrite hasClass_update by done).
  - split; [done|]. split; intros.
    all: unfold_setters.
    all: rewrite ?files_get_update by done; try done.
    repeat (rewrite hasClass_update by done).
    fold (classList_remove fileLabel "file-selected").
    rewrite hasClass_classList_remove_ne by done.
    by repeat (rewrite hasClass_update by done).
Qed.

Lemma selected_document_holds_text fileLabel fileText file d :
  is_Some (heap d !! fileText) →
  holds_text (selected_document fileLabel fileText file d) fileText (name file).
Proof.
  intros H. unfold selected_document, style_set, classList_add.
  do 3 (apply holds_text_update; [done|]).
  by apply holds_text_textContent_set.
Qed.

Lemma selected_document_hasClass fileLabel fileText file d :
  is_Some (heap d !! fileLabel) →
  hasClass (selected_document fileLabel fileText file d) fileLabel "file-selected" = true.
Proof.
  intros H. unfold selected_document, style_set.
  repeat (rewrite hasClass_update by done).
  apply hasClass_classList_add. unfold textContent_set.
  rewrite lookup_lt_is_Some, length_update. by apply lookup_lt_is_Some.
Qed.

(** A file is selected: the text, the class, and the summary line when
    the page has one. *)
Lemma change_listener_selected fileLabel fileText target st file :
  is_Some (heap (document st) !! fileLabel) →
  is_Some (heap (document st) !! fileText) →
  head (files_get (document st) target) = Some file →
  let st' := Home.fileInput_change_listener fileLabel fileText target st in
  textContent (document st') fileText = name file
  ∧ hasClass (document st') fileLabel "file-selected" = true
  ∧ (∀ fileInfo filenameText,
       querySelector (selected_document fileLabel fileText file (document st))
                     Home.file_info = Some fileInfo →
       querySelector_in (selected_document fileLabel fileText file (document st))
                        fileInfo Home.filename_text = Some filenameText →
       textContent (document st') filenameText = name file).
Proof.
  intros Hl Ht Hfile. unfold Home.fileInput_change_listener. rewrite Hfile. simpl.
  fold (selected_document fileLabel fileText file (document st)).
  set (d1 := selected_document fileLabel fileText file (document st)).
  pose proof (selected_document_holds_text fileLabel fileText file _ Ht) as Htext.
  pose proof (selected_document_hasClass fileLabel fileText file _ Hl) as Hclass.
  fold d1 in Htext, Hclass.
  destruct (querySelector d1 Home.file_info) as [fileInfo|] eqn:Hinfo; simpl.
  - destruct (querySelector_in d1 fileInfo Home.filename_text) as [filenameText|] eqn:Hname;
      simpl.
    + split; [|split].
      * by apply holds_text_textContent, holds_text_textContent_set_same.
      * unfold textContent_set. by rewrite (hasClass_update (with_textContent _)) by done.
      * intros ? filenameText' [= <-] Hname'. rewrite Hname in Hname'.
        injection Hname' as <-. apply textContent_textContent_set.
        by eapply querySelector_in_is_Some.
    + split; [by apply holds_text_textContent|]. split; [done|].
      intros ? ? [= <-] Hname'. congruence.
  - split; [by apply holds_text_textContent|]. split; [done|]. done.
Qed.


End change_listener_facts.

(** ** The file input *)

Section file_input.

Import DOM.

Context (d : Document) (fileInput fileLabel fileText : handle).
Context (HfileInput : getElementById d "csvFileInput" = Some fileInput).
Context (HfileLabel : querySelector d Home.file_input_label = Some fileLabel).
Context (HfileText : querySelector d Home.file_text = Some fileText).

Implicit Types (st : Page) (stimuli : list Browser.Stimulus).

Lemma is_Some_update f n d' m :
  is_Some (heap d' !! m) → is_Some (heap (update f n d') !! m).
Proof. rewrite !lookup_lt_is_Some. by rewrite length_update. Qed.

Lemma deliver_change st target :
  listeners st = listeners (Home.ready (load d)) →
  Browser.deliver fileInput (ChangeEvent target) st =
  Home.fileInput_change_listener fileLabel fileText target st.
Proof.
  intros Hl. unfold Browser.deliver. simpl.
  by rewrite (listeners_for_change d fileInput fileLabel fileText).
Qed.

Lemma deliver_dragover st :
  listeners st = listeners (Home.ready (load d)) →
  Browser.deliver fileLabel DragOverEvent st = Home.fileLabel_dragover_listener fileLabel st.
Proof.
  intros Hl. unfold Browser.deliver. simpl.
  by rewrite (listeners_for_dragover d fileInput fileLabel fileText).
Qed.

Lemma deliver_dragleave st :
  listeners st = listeners (Home.ready (load d)) →
  Browser.deliver fileLabel DragLeaveEvent st = Home.fileLabel_dragleave_listener fileLabel st.
Proof.
  intros Hl. unfold Browser.deliver. simpl.
  by rewrite (listeners_for_dragleave d fileInput fileLabel fileText).
Qed.

Lemma deliver_drop st fl :
  listeners st = listeners (Home.ready (load d)) →
  Browser.deliver fileLabel (DropEvent fl) st =
  Home.fileLabel_drop_listener fileInput fileLabel fl st.
Proof.
  intros Hl. unfold Browser.deliver. simpl.
  by rewrite (listeners_for_drop d fileInput fileLabel fileText).
Qed.

Lemma dispatch_change_fileInput st :
  listeners st = listeners (Home.ready (load d)) →
  Home.dispatch_change fileInput st =
  Home.fileInput_change_listener fileLabel fileText fileInput
    (call (dispatchEvent fileInput "change") st).
Proof.
  intros Hl. unfold Home.dispatch_change.
  by rewrite (listeners_for_change d fileInput fileLabel fileText).
Qed.

Lemma listeners_reached stimuli :
  listeners (Browser.run (Home.ready (load d)) stimuli) = listeners (Home.ready (load d)).
Proof. apply (frame_listeners _ _ (frame_reached d stimuli)). Qed.

(** C1. In every page reached after the script has run, a drop event on
    the file-input label whose file list is not empty and whose first
    file has neither the type [text/csv] nor a name that ends in [.csv]
    shows the alert [Please select a CSV file.], dispatches no change
    event, and leaves the [files] of the file input as they were. *)
Theorem drop_of_other_file_alerts stimuli file rest :
  type file ≠ "text/csv" →
  ¬ JSString.ends_in (name file) ".csv" →
  let st := Browser.run (Home.ready (load d)) stimuli in
  let st' := Browser.deliver fileLabel (DropEvent (file :: rest)) st in
  log st' = log st ++ [preventDefault "drop"; alert "Please select a CSV file."]
  ∧ files_get (document st') fileInput = files_get (document st) fileInput.
Proof.
  intros Htype Hname st st'. subst st'.
  rewrite deliver_drop by apply listeners_reached.
  unfold Home.fileLabel_drop_listener.
  apply String.eqb_neq in Htype. rewrite <- endsWith_spec in Hname.
  apply not_true_is_false in Hname. rewrite Htype, Hname. simpl. split.
  - by rewrite <- app_assoc.
  - unfold classList_remove. by rewrite files_get_update.
Qed.

(** C4. In every page reached after the script has run, a drop event on
    the file-input label whose first file has the type [text/csv] or a
    name that ends in [.csv] stores the dropped list in the [files] of
    the file input and dispatches one change event on it, after which
    the label text is the name of that file. *)
Theorem drop_of_csv_file_selects stimuli file rest :
  type file = "text/csv" ∨ JSString.ends_in (name file) ".csv" →
  let st := Browser.run (Home.ready (load d)) stimuli in
  let st' := Browser.deliver fileLabel (DropEvent (file :: rest)) st in
  files_get (document st') fileInput = file :: rest
  ∧ log st' = log st ++ [preventDefault "drop"; dispatchEvent fileInput "change"]
  ∧ textContent (document st') fileText = name file.
Proof.
  intros Hcsv st st'. subst st'.
  rewrite deliver_drop by apply listeners_reached.
  unfold Home.fileLabel_drop_listener.
  assert (String.eqb (type file) "text/csv" || JSString.endsWith (name file) ".csv" = true)
    as -> by (apply orb_true_iff; rewrite String.eqb_eq, endsWith_spec; done).
  rewrite dispatch_change_fileInput by apply listeners_reached.
  set (st1 := call _ (on_document _ _)).
  assert (is_Some (heap (document st) !! fileInput)) as Hi
    by (apply reached_is_Some; by eapply getElementById_is_Some).
  assert (is_Some (heap (document st) !! fileLabel)) as Hl
    by (apply reached_is_Some; by eapply querySelector_is_Some).
  assert (is_Some (heap (document st) !! fileText)) as Ht
    by (apply reached_is_Some; by eapply querySelector_is_Some).
  assert (files_get (document st1) fileInput = file :: rest) as Hfiles.
  { subst st1. simpl. apply files_get_files_set. by apply is_Some_update. }
  destruct (change_listener_frame fileLabel fileText fileInput st1) as (Hlog & Hf & _).
  destruct (change_listener_selected fileLabel fileText fileInput st1 file) as (Htext & _).
  { unfold st1. cbn [call on_document document]. unfold files_set, classList_remove.
    by do 2 apply is_Some_update. }
  { unfold st1. cbn [call on_document document]. unfold files_set, classList_remove.
    by do 2 apply is_Some_update. }
  { by rewrite Hfiles. }
  split; [by rewrite Hf|]. split; [|done].
  rewrite Hlog. simpl. by rewrite <- app_assoc.
Qed.

(** C9. In every page reached after the script has run, a drop event on
    the file-input label whose file list is empty does nothing but
    prevent the default action and remove the class [drag-over] from
    the label: it shows no alert, dispatches no event and leaves the
    [files] of every element as they were. *)
Theorem drop_of_nothing_only_clears_drag_over stimuli :
  let st := Browser.run (Home.ready (load d)) stimuli in
  let st' := Browser.deliver fileLabel (DropEvent []) st in
  st' = on_document (classList_remove fileLabel "drag-over") (call (preventDefault "drop") st)
  ∧ log st' = log st ++ [preventDefault "drop"]
  ∧ (∀ n, files_get (document st') n = files_get (document st) n).
Proof.
  intros st st'. subst st'.
  rewrite deliver_drop by apply listeners_reached.
  unfold Home.fileLabel_drop_listener. split; [done|]. split; [done|].
  intros n. simpl. unfold classList_remove. by rewrite files_get_update.
Qed.

(** C10. In every page reached after the script has run, a dragover
    event on the file-input label leaves it with the class [drag-over],
    and a dragleave event or a drop event, whatever is dropped, leaves
    it without: no drag that has ended keeps the class on the label. *)
Theorem drag_over_class_follows_the_drag stimuli :
  let st := Browser.run (Home.ready (load d)) stimuli in
  hasClass (document (Browser.deliver fileLabel DragOverEvent st)) fileLabel "drag-over" = true
  ∧ hasClass (document (Browser.deliver fileLabel DragLeaveEvent st)) fileLabel "drag-over"
    = false
  ∧ (∀ fl, hasClass (document (Browser.deliver fileLabel (DropEvent fl) st))
                    fileLabel "drag-over" = false).
Proof.
  intros st.
  assert (is_Some (heap (document st) !! fileLabel)) as Hl
    by (apply reached_is_Some; by eapply querySelector_is_Some).
  split; [|split].
  - rewrite deliver_dragover by apply listeners_reached.
    unfold Home.fileLabel_dragover_listener. simpl. by apply hasClass_classList_add.
  - rewrite deliver_dragleave by apply listeners_reached.
    unfold Home.fileLabel_dragleave_listener. simpl. apply hasClass_classList_remove.
  - intros fl. rewrite deliver_drop by apply listeners_reached.
    unfold Home.fileLabel_drop_listener.
    destruct fl as [|file rest]; simpl; [apply hasClass_classList_remove|].
    destruct (_ || _); simpl; [|apply hasClass_classList_remove].
    rewrite dispatch_change_fileInput by apply listeners_reached.
    destruct (change_listener_frame fileLabel fileText fileInput
                (call (dispatchEvent fileInput "change")
                   (on_document (files_set fileInput (file :: rest))
                      (on_document (classList_remove fileLabel "drag-over")
                         (call (preventDefault "drop") st))))) as (_ & _ & Hc).
    rewrite Hc by done. simpl. unfold files_set. rewrite hasClass_update by done.
    apply hasClass_classList_remove.
Qed.

End file_input.

Section file_input_missing.

Import DOM.

(** C6. When [#csvFileInput], [.file-input-label] or [.file-text] is not
    in the document as the script runs, the file input section leaves
    the page as it found it, the document included, and the script
    registers no listener for change, dragover, dragleave or drop: the
    only listener it may register is the click listener of the action
    button. *)
Theorem missing_element_skips_file_input (d : Document) :
  getElementById d "csvFileInput" = None
  ∨ querySelector d Home.file_input_label = None
  ∨ querySelector d Home.file_text = None →
  Home.file_input_section (load d) = load d
  ∧ (∀ entry, entry ∈ listeners (Home.ready (load d)) → entry.2 = actionButton_click).
Proof.
  intros Hmissing.
  assert (Home.file_input_section (load d) = load d) as Hskip.
  { unfold Home.file_input_section. simpl.
    destruct Hmissing as [-> | [-> | ->]]; by repeat case_match. }
  split; [done|].
  intros entry. rewrite listeners_ready, Hskip, action_button_listeners. simpl.
  case_match; [|by intros ?%elem_of_nil].
  by intros ->%list_elem_of_singleton.
Qed.

End file_input_missing.

(** ** The table *)

Section table.

Import DOM.

Lemma log_observe_all cards st :
  log (foldl (λ st card, Home.observer_observe card st) st cards)
  = log st ++ (observe <$> cards).
Proof.
  revert st. induction cards as [|c cards IH]; intros st; simpl.
  - by rewrite app_nil_r.
  - rewrite IH. simpl. by rewrite <- app_assoc.
Qed.

Lemma log_stat_cards_section st :
  log (Home.stat_cards_section st)
  = log st ++ (observe <$> querySelectorAll (document st) Home.stat_card).
Proof.
  unfold Home.stat_cards_section.
  destruct (querySelectorAll (document st) Home.stat_card) as [|c cards] eqn:E.
  - simpl. by rewrite app_nil_r.
  - simpl Nat.ltb. cbv iota. apply log_observe_all.
Qed.

Lemma log_ready d :
  log (Home.ready (load d))
  = log (Home.table_section (load d)) ++ (observe <$> querySelectorAll d Home.stat_card).
Proof.
  unfold Home.ready. rewrite log_stat_cards_section.
  destruct (action_button_section_frame
              (Home.table_section (Home.file_input_section (load d))))
    as (-> & _ & _ & ->).
  destruct (table_section_frame (Home.file_input_section (load d))) as (-> & _).
  destruct (file_input_section_frame (load d)) as (Hd & _ & Hp & Hl).
  rewrite Hd. simpl. f_equal.
  unfold Home.table_section. rewrite Hd. simpl.
  repeat case_match; simpl; by rewrite ?Hl.
Qed.

Lemma pending_ready d :
  pending (Home.ready (load d)) = pending (Home.table_section (load d)).
Proof.
  unfold Home.ready.
  destruct (stat_cards_section_frame
              (Home.action_button_section
                 (Home.table_section (Home.file_input_section (load d)))))
    as (_ & _ & _ & ->).
  destruct (action_button_section_frame
              (Home.table_section (Home.file_input_section (load d))))
    as (_ & _ & -> & _).
  destruct (file_input_section_frame (load d)) as (Hd & _ & Hp & _).
  unfold Home.table_section. rewrite Hd. simpl.
  repeat case_match; simpl; by rewrite ?Hp.
Qed.

(** C2, as the script has it.  When it runs, the script takes at most
    one path to the widget, chosen by [tableEl]: the first table that
    descends from [#csvTableContainer] or, when there is none, the
    element [#csvTable].  If [tableEl] exists and the id of its parent
    element is [csvTableContainer], the widget is started on [tableEl]
    and no request is sent.  If [tableEl] exists and has another parent,
    or none, the GET of [/data] is sent and no widget is started before
    the answer.  If [tableEl] does not exist, no widget is started and
    no request is sent.  (The calls that follow in the log are those of
    the stat cards.) *)
Theorem table_paths (d : Document) :
  let st := Home.ready (load d) in
  let cards := observe <$> querySelectorAll d Home.stat_card in
  match Home.find_tableEl d with
  | Some tableEl =>
      if Home.parent_is_csvTableContainer d tableEl
      then log st = DataTable (DataTables.of_element tableEl) Home.prerendered_options :: cards
           ∧ pending st = []
      else log st = ajax Home.data_request :: cards
           ∧ pending st = [Home.data_request]
  | None => log st = cards ∧ pending st = []
  end.
Proof.
  intros st cards. subst st cards. rewrite log_ready, pending_ready.
  unfold Home.table_section. simpl.
  destruct (Home.find_tableEl d) as [tableEl|]; [|done].
  by destruct (Home.parent_is_csvTableContainer d tableEl).
Qed.

(** C2 as the claim has it fails on the page [Pages.nested].  The page
    has one table; it descends from [#csvTableContainer] but the id of
    its parent is not [csvTableContainer], and the page has no
    [#csvTable].  Neither element of the claim exists, for which the
    claim has no widget and no request, and the script sends the GET of
    [/data]; nor is the widget started directly on the table. *)
Lemma nested_table_requests_data :
  querySelectorAll Pages.nested (Subject (mkCompound (Some "table") None [])) = [4]
  ∧ querySelector Pages.nested Home.csvTableContainer_table = Some 4
  ∧ Home.parent_is_csvTableContainer Pages.nested 4 = false
  ∧ getElementById Pages.nested "csvTable" = None
  ∧ log (Home.ready (load Pages.nested)) = [ajax Home.data_request]
  ∧ pending (Home.ready (load Pages.nested)) = [Home.data_request].
Proof. by vm_compute. Qed.

End table.

(** ** The answer to the request *)

Section response.

Import DOM.

Implicit Types (st : Page) (json columns : JS.Value).

Lemma snoc_ne {A} (l : list A) x : l ++ [x] ≠ l.
Proof. intros H%(f_equal length). rewrite length_app in H. simpl in H. lia. Qed.

Lemma is_zero_number_of_nat n : JS.is_zero (JS.number_of_nat n) = bool_decide (n = 0).
Proof. by destruct n. Qed.

(** What the [success] function does, case by case. *)
Lemma init_csvTable_cases json st :
  (∃ columns len,
     JS.get json "columns" = inr columns ∧ JS.truthy columns = true
     ∧ JS.get columns "length" = inr len ∧ JS.strict_equals_zero len = false
     ∧ Home.init_csvTable json st
       = inr (call (DataTable (DataTables.of_selector "#csvTable")
                              (Home.serverSide_options columns)) st))
  ∨ ((∀ columns len,
        JS.get json "columns" = inr columns → JS.truthy columns = true →
        JS.get columns "length" = inr len → JS.strict_equals_zero len = true)
     ∧ (Home.init_csvTable json st = inr st
        ∨ Home.init_csvTable json st = inl JS.TypeError)).
Proof.
  unfold Home.init_csvTable.
  destruct (JS.get json "columns") as [[]|columns] eqn:Hc.
  { right. split; [done | by right]. }
  destruct (JS.truthy columns) eqn:Ht; simpl.
  2:{ right. split; [|by left]. intros ? ? [= <-]. congruence. }
  destruct (JS.get columns "length") as [[]|len] eqn:Hl.
  { right. split; [|by right]. intros ? ? [= <-] _. congruence. }
  destruct (JS.strict_equals_zero len) eqn:Hz.
  - right. split; [|by left]. intros ? ? [= <-] _ Hl'. congruence.
  - left. by exists columns, len.
Qed.

(** C3, as the script has it.  When the request for [/data] ends, the
    widget is started on [#csvTable] if and only if the request
    succeeded and the [columns] of the parsed body are truthy and have a
    [length] other than 0.  A body whose [columns] are an array starts
    it if and only if the array is not empty.  In every other case, a
    failed request among them, the page is left as it was but for the
    request, which is no longer pending: nothing is logged, shown or
    tried again. *)
Theorem response_starts_widget st (i : nat) (outcome : Ajax.Outcome) :
  pending st !! i = Some Home.data_request →
  let st' := Browser.settle i outcome st in
  let started :=
    ∃ options, log st' = log st ++ [DataTable (DataTables.of_selector "#csvTable") options] in
  (started ↔
     ∃ json columns len,
       outcome = Ajax.Succeeded json
       ∧ JS.get json "columns" = inr columns ∧ JS.truthy columns = true
       ∧ JS.get columns "length" = inr len ∧ JS.strict_equals_zero len = false)
  ∧ (∀ json items,
       outcome = Ajax.Succeeded json → JS.get json "columns" = inr (JS.Array items) →
       (started ↔ items ≠ []))
  ∧ (¬ started → st' = Browser.forget i st).
Proof.
  intros Hpending st' started.
  assert (started ↔
     ∃ json columns len,
       outcome = Ajax.Succeeded json
       ∧ JS.get json "columns" = inr columns ∧ JS.truthy columns = true
       ∧ JS.get columns "length" = inr len ∧ JS.strict_equals_zero len = false) as Hiff.
  { subst started st'. unfold Browser.settle. rewrite Hpending.
    destruct outcome as [json|]; simpl.
    - destruct (init_csvTable_cases json (Browser.forget i st))
        as [(columns & len & Hc & Ht & Hl & Hz & ->) | [Hno [-> | ->]]]; simpl.
      + split; [by eauto 10 | eauto].
      + split; [by intros [? ?%symmetry%snoc_ne]|].
        intros (? & columns & len & [= <-] & Hc & Ht & Hl & Hz).
        rewrite (Hno _ _ Hc Ht Hl) in Hz. done.
      + split; [by intros [? ?%symmetry%snoc_ne]|].
        intros (? & columns & len & [= <-] & Hc & Ht & Hl & Hz).
        rewrite (Hno _ _ Hc Ht Hl) in Hz. done.
    - split; [by intros [? ?%symmetry%snoc_ne]|]. by intros (? & ? & ? & ? & _). }
  split; [done|]. split.
  - intros json items -> Hitems. rewrite Hiff. split.
    + intros (? & columns & len & [= <-] & Hc & _ & Hl & Hz) ->.
      rewrite Hitems in Hc. injection Hc as <-. simpl in Hl. injection Hl as <-. done.
    + intros Hne. exists json, (JS.Array items), (JS.Number (JS.number_of_nat (length items))).
      repeat split; try done. simpl. rewrite is_zero_number_of_nat.
      apply bool_decide_eq_false. by destruct items.
  - intros Hnot. subst started st'. unfold Browser.settle. rewrite Hpending.
    destruct outcome as [json|]; simpl; [|done].
    destruct (init_csvTable_cases json (Browser.forget i st))
      as [(columns & len & Hc & Ht & Hl & Hz & Hrun) | [_ [-> | ->]]]; try done.
    exfalso. apply Hnot. unfold Browser.settle. rewrite Hpending. simpl. rewrite Hrun.
    simpl. eauto.
Qed.

(** C3 as the claim has it fails on the page [Pages.remote]: a body
    whose [columns] are a string, not an array, starts the widget. *)
Lemma string_columns_start_widget :
  let st := Home.ready (load Pages.remote) in
  let json := JS.Object [("columns", JS.Str "id")] in
  pending st !! 0 = Some Home.data_request
  ∧ JS.get json "columns" = inr (JS.Str "id")
  ∧ log (Browser.settle 0 (Ajax.Succeeded json) st)
    = log st ++ [DataTable (DataTables.of_selector "#csvTable")
                           (Home.serverSide_options (JS.Str "id"))].
Proof. by vm_compute. Qed.

(** C7. The widget that the answer to the request starts is the one of
    [#csvTable], with [serverSide: true] and [ajax: '/data'], so that it
    asks [/data] for its pages, with the [columns] of the body as its
    columns, 5 rows a page and the page lengths 5, 10, 20 and 50. *)
Theorem widget_pages_through_data st (i : nat) json target options :
  pending st !! i = Some Home.data_request →
  log (Browser.settle i (Ajax.Succeeded json) st) = log st ++ [DataTable target options] →
  target = DataTables.of_selector "#csvTable"
  ∧ DataTables.serverSide options = Some true
  ∧ DataTables.ajax options = Some "/data"
  ∧ (∃ columns, JS.get json "columns" = inr columns
                ∧ DataTables.columns options = Some columns)
  ∧ DataTables.pageLength options = Some 5%Z
  ∧ DataTables.lengthMenu options = Some [5; 10; 20; 50]%Z.
Proof.
  intros Hpending. unfold Browser.settle. rewrite Hpending. simpl.
  destruct (init_csvTable_cases json (Browser.forget i st))
    as [(columns & len & Hc & Ht & Hl & Hz & ->) | [_ [-> | ->]]]; simpl.
  - intros [_ [= <- <-]]%app_inj_tail. repeat split; eauto.
  - by intros ?%symmetry%snoc_ne.
  - by intros ?%symmetry%snoc_ne.
Qed.

End response.

(** ** The action button *)

Section action_button.

Import DOM.

Context (d : Document) (actionButton : handle).
Context (HactionButton : querySelector d Home.btn_large = Some actionButton).

Implicit Types (st : Page) (stimuli : list Browser.Stimulus).

Lemma file_input_section_no_click entry :
  entry ∈ listeners (Home.file_input_section (load d)) → entry.2 ≠ actionButton_click.
Proof.
  unfold Home.file_input_section. simpl.
  repeat case_match; simpl; try by intros ?%elem_of_nil.
  rewrite !elem_of_cons, elem_of_nil. intros [-> | [-> | [-> | [-> | []]]]]; done.
Qed.

Lemma click_listener_registered n :
  (n, actionButton_click) ∈ listeners (Home.ready (load d)) ↔ n = actionButton.
Proof.
  rewrite listeners_ready, action_button_listeners, HactionButton, elem_of_app.
  rewrite list_elem_of_singleton. split.
  - intros [H%file_input_section_no_click | [= ->]]; done.
  - intros ->. by right.
Qed.

Lemma listeners_for_click st :
  listeners st = listeners (Home.ready (load d)) →
  listeners_for actionButton "click" st = [(actionButton, actionButton_click)].
Proof.
  intros Hl. unfold listeners_for.
  rewrite Hl, listeners_ready, action_button_listeners, HactionButton, filter_app.
  unfold Home.file_input_section. simpl.
  repeat case_match; simpl; listeners_for_tac.
Qed.

Lemma deliver_click st :
  listeners st = listeners (Home.ready (load d)) →
  Browser.deliver actionButton ClickEvent st
  = Home.actionButton_click_listener actionButton st.
Proof. intros Hl. unfold Browser.deliver. simpl. by rewrite listeners_for_click. Qed.

(** Every timer of a page reached from the script's resets the
    transform of the action button. *)
Lemma timers_reached stimuli :
  Forall (λ tm, callback tm = reset_transform actionButton)
         (timers (Browser.run (Home.ready (load d)) stimuli)).
Proof.
  eapply Forall_impl; [apply (frame_timers _ _ (frame_reached d stimuli))|].
  intros tm (n & -> & Hn%click_listener_registered). by subst n.
Qed.

(** Timers that fire: each resets the transform of the button and
    nothing else. *)
Lemma fire_resets (fired : list Timer) st :
  Forall (λ tm, callback tm = reset_transform actionButton) fired →
  is_Some (heap (document st) !! actionButton) →
  let st' := foldl (λ st tm, Browser.run_timer (callback tm) st) st fired in
  timers st' = timers st
  ∧ is_Some (heap (document st') !! actionButton)
  ∧ (∀ n p, p ≠ "transform" → style_get (document st') n p = style_get (document st) n p)
  ∧ (fired ≠ [] → style_get (document st') actionButton "transform" = "").
Proof.
  induction fired as [|tm fired IH] using rev_ind; intros Hall Hb; simpl; [done|].
  apply Forall_app in Hall as [Hall Htm%Forall_inv]. rewrite foldl_app. simpl.
  destruct (IH Hall Hb) as (Ht & Hb' & Hother & _). rewrite Htm. simpl.
  split; [done|]. split; [by apply is_Some_update|]. split.
  - intros n p Hp. rewrite style_get_style_set_ne by done. by apply Hother.
  - intros _. by apply style_get_style_set_empty.
Qed.

(** C8. In every page reached after the script has run on a document
    with a [.btn.large], a click on that element sets its inline
    [transform] to [scale(0.98)], changes no other property of its
    style, and sets one timer for 150 milliseconds later.  Until 150
    milliseconds have passed the timer stays pending; once they have,
    it is gone, the [transform] is the empty string again, and the other
    properties of the style are still what they were before the click. *)
Theorem click_scales_then_resets stimuli :
  let st := Browser.run (Home.ready (load d)) stimuli in
  let st1 := Browser.deliver actionButton ClickEvent st in
  let timer := {| due := now st + 150; callback := reset_transform actionButton |} in
  style_get (document st1) actionButton "transform" = "scale(0.98)"
  ∧ (∀ p, p ≠ "transform" →
          style_get (document st1) actionButton p = style_get (document st) actionButton p)
  ∧ timers st1 = timers st ++ [timer]
  ∧ (∀ dt, (dt < 150)%N → timer ∈ timers (Browser.elapse dt st1))
  ∧ (let st2 := Browser.elapse 150 st1 in
     (timer ∉ timers st2)
     ∧ style_get (document st2) actionButton "transform" = ""
     ∧ (∀ p, p ≠ "transform" →
             style_get (document st2) actionButton p
             = style_get (document st) actionButton p)).
Proof.
  intros st st1 timer.
  assert (listeners st = listeners (Home.ready (load d))) as Hl
    by apply (frame_listeners _ _ (frame_reached d stimuli)).
  assert (is_Some (heap (document st) !! actionButton)) as Hb
    by (apply reached_is_Some; by eapply querySelector_is_Some).
  assert (st1 = Home.actionButton_click_listener actionButton st) as Hst1
    by (by apply deliver_click).
  assert (is_Some (heap (document st1) !! actionButton)) as Hb1.
  { rewrite Hst1. simpl. by apply is_Some_update. }
  assert (Forall (λ tm, callback tm = reset_transform actionButton) (timers st1)) as Hall.
  { rewrite Hst1. simpl. apply Forall_app. split; [apply timers_reached|].
    by repeat constructor. }
  assert (∀ p, p ≠ "transform" →
            style_get (document st1) actionButton p = style_get (document st) actionButton p)
    as Hother.
  { intros p Hp. rewrite Hst1. simpl. by apply style_get_style_set_ne. }
  assert (∀ dt,
    let fired := filter (λ tm, (due tm ≤ now st1 + dt)%N) (timers st1) in
    let kept := filter (λ tm, (now st1 + dt < due tm)%N) (timers st1) in
    timers (Browser.elapse dt st1) = kept
    ∧ (∀ p, p ≠ "transform" →
         style_get (document (Browser.elapse dt st1)) actionButton p
         = style_get (document st1) actionButton p)
    ∧ (fired ≠ [] →
       style_get (document (Browser.elapse dt st1)) actionButton "transform" = ""))
    as Helapse.
  { intros dt fired kept. unfold Browser.elapse. fold fired kept.
    set (st0 := mkPage _ _ _ _ _ _ _).
    destruct (fire_resets fired st0) as (Ht & _ & Ho & Hr).
    - subst fired. rewrite Forall_forall in Hall |- *.
      intros tm [_ Hin]%list_elem_of_filter. auto.
    - done.
    - split; [done|]. split; [|done]. intros p Hp. by rewrite Ho. }
  assert (now st1 = now st ∧ timers st1 = timers st ++ [timer]) as [Hnow Htimers]
    by (by rewrite Hst1).
  split; [|split; [done|split; [done|split]]].
  - rewrite Hst1. simpl. by apply style_get_style_set.
  - intros dt Hdt. destruct (Helapse dt) as (-> & _).
    apply list_elem_of_filter. split.
    + rewrite Hnow. simpl. lia.
    + rewrite Htimers. apply elem_of_app. right. by left.
  - intros st2. subst st2. destruct (Helapse 150%N) as (-> & Ho & Hr).
    split; [|split].
    + intros [Hdue _]%list_elem_of_filter. rewrite Hnow in Hdue. simpl in Hdue. lia.
    + apply Hr. intros Hnil.
      assert (timer ∈ filter (λ tm, (due tm ≤ now st1 + 150)%N) (timers st1)) as Hin.
      { apply list_elem_of_filter. split; [rewrite Hnow; simpl; lia|].
        rewrite Htimers. apply elem_of_app. right. by left. }
      rewrite Hnil in Hin. by apply elem_of_nil in Hin.
    + intros p Hp. by rewrite Ho, Hother.
Qed.

End action_button.

(** ** Lookups after the writes of the change listener *)

Section lookups_after_writes.

Import DOM.

Implicit Types (d : Document) (n m : handle) (c : Compound) (s : Selector).










End lookups_after_writes.

Section file_info.

Import DOM.

Context (d : Document) (fileInput fileLabel fileText : handle).
Context (HfileInput : getElementById d "csvFileInput" = Some fileInput).
Context (HfileLabel : querySelector d Home.file_input_label = Some fileLabel).
Context (HfileText : querySelector d Home.file_text = Some fileText).


End file_info.

(** ** The sample pages, worked *)

Section worked.

Import DOM.

Example endsWith_csv :
  JSString.endsWith "sales.csv" ".csv" = true
  ∧ JSString.endsWith ".csv" ".csv" = true
  ∧ JSString.endsWith "csv" ".csv" = false
  ∧ JSString.endsWith "sales.CSV" ".csv" = false
  ∧ JSString.endsWith "sales.csv.txt" ".csv" = false.
Proof. by vm_compute. Qed.

(** The script on the upload page: five listeners, the widget on the
    table the server rendered, one card observed, no request. *)
Example ready_on_upload :
  let st := Home.ready (load Pages.upload) in
  listeners st
  = [ (4, fileInput_change 2 3); (2, fileLabel_dragover 2); (2, fileLabel_dragleave 2);
      (2, fileLabel_drop 4 2); (9, actionButton_click) ]
  ∧ log st = [DataTable (DataTables.of_element 8) Home.prerendered_options; observe 10]
  ∧ pending st = [].
Proof. by vm_compute. Qed.

(** The user picks a file on the upload page: its name is the text of
    the label and of the summary line. *)
Example choose_on_upload :
  let st := Browser.run (Home.ready (load Pages.upload))
                        [Browser.Choose 4 [Pages.sales_csv]] in
  textContent (document st) 3 = "sales.csv"
  ∧ textContent (document st) 6 = "sales.csv"
  ∧ hasClass (document st) 2 "file-selected" = true
  ∧ style_get (document st) 2 "borderColor" = "var(--success)"
  ∧ style_get (document st) 2 "background" = "var(--success-light)".
Proof. by vm_compute. Qed.

(** The user then empties the file input. *)
Example choose_nothing_on_upload :
  let st := Browser.run (Home.ready (load Pages.upload))
                        [Browser.Choose 4 [Pages.sales_csv]; Browser.Choose 4 []] in
  textContent (document st) 3 = "Choose CSV File"
  ∧ textContent (document st) 6 = "sales.csv"
  ∧ hasClass (document st) 2 "file-selected" = false
  ∧ style_get (document st) 2 "borderColor" = "var(--primary)"
  ∧ style_get (document st) 2 "background" = "var(--input-bg)".
Proof. by vm_compute. Qed.

(** Bodies that do not start the widget: no [columns], an empty array,
    [null] (for which the function throws), and a failed request. *)
Example bodies_without_columns :
  let st := Home.ready (load Pages.remote) in
  Browser.settle 0 (Ajax.Succeeded (JS.Object [("rows", JS.Array [])])) st
  = Browser.forget 0 st
  ∧ Browser.settle 0 (Ajax.Succeeded (JS.Object [("columns", JS.Array [])])) st
    = Browser.forget 0 st
  ∧ Home.init_csvTable JS.Null (Browser.forget 0 st) = inl JS.TypeError
  ∧ Browser.settle 0 (Ajax.Succeeded JS.Null) st = Browser.forget 0 st
  ∧ Browser.settle 0 Ajax.Failed st = Browser.forget 0 st.
Proof. by vm_compute. Qed.

(** C1 on the upload page: a text file is dropped during a drag. *)
Lemma drop_of_other_file_alerts_on_upload :
  getElementById Pages.upload "csvFileInput" = Some 4
  ∧ querySelector Pages.upload Home.file_input_label = Some 2
  ∧ querySelector Pages.upload Home.file_text = Some 3
  ∧ type Pages.notes_txt ≠ "text/csv"
  ∧ ¬ JSString.ends_in (name Pages.notes_txt) ".csv"
  ∧ (let st := Browser.run (Home.ready (load Pages.upload))
                           [Browser.Deliver 2 DragOverEvent] in
     let st' := Browser.deliver 2 (DropEvent [Pages.notes_txt]) st in
     log st' = log st ++ [preventDefault "drop"; alert "Please select a CSV file."]
     ∧ files_get (document st') 4 = files_get (document st) 4).
Proof.
  assert (¬ JSString.ends_in (name Pages.notes_txt) ".csv") as Hname
    by (intros H%endsWith_spec; by vm_compute in H).
  do 4 (split; [by vm_compute|]). split; [done|].
  apply (drop_of_other_file_alerts Pages.upload 4 2 3); by vm_compute || done.
Defined.

(** C4 on the upload page: a file that is a CSV by its name only is
    dropped. *)
Lemma drop_of_csv_file_selects_on_upload :
  getElementById Pages.upload "csvFileInput" = Some 4
  ∧ querySelector Pages.upload Home.file_input_label = Some 2
  ∧ querySelector Pages.upload Home.file_text = Some 3
  ∧ (type Pages.export_csv = "text/csv"
     ∨ JSString.ends_in (name Pages.export_csv) ".csv")
  ∧ (let st := Browser.run (Home.ready (load Pages.upload))
                           [Browser.Deliver 2 DragOverEvent] in
     let st' := Browser.deliver 2 (DropEvent [Pages.export_csv; Pages.notes_txt]) st in
     files_get (document st') 4 = [Pages.export_csv; Pages.notes_txt]
     ∧ log st' = log st ++ [preventDefault "drop"; dispatchEvent 4 "change"]
     ∧ textContent (document st') 3 = name Pages.export_csv).
Proof.
  do 3 (split; [by vm_compute|]). split; [right; by exists "export"|].
  apply (drop_of_csv_file_selects Pages.upload 4 2 3); try by vm_compute.
  right. by exists "export".
Defined.



(** C9 on the upload page: nothing is dropped. *)
Lemma drop_of_nothing_on_upload :
  getElementById Pages.upload "csvFileInput" = Some 4
  ∧ querySelector Pages.upload Home.file_input_label = Some 2
  ∧ querySelector Pages.upload Home.file_text = Some 3
  ∧ (let st := Browser.run (Home.ready (load Pages.upload))
                           [Browser.Deliver 2 DragOverEvent] in
     let st' := Browser.deliver 2 (DropEvent []) st in
     st' = on_document (classList_remove 2 "drag-over") (call (preventDefault "drop") st)
     ∧ log st' = log st ++ [preventDefault "drop"]
     ∧ (∀ n, files_get (document st') n = files_get (document st) n)).
Proof.
  do 3 (split; [by vm_compute|]).
  apply (drop_of_nothing_only_clears_drag_over Pages.upload 4 2 3); by vm_compute.
Defined.

(** C10 on the upload page, in the middle of a drag. *)
Lemma drag_over_class_on_upload :
  getElementById Pages.upload "csvFileInput" = Some 4
  ∧ querySelector Pages.upload Home.file_input_label = Some 2
  ∧ querySelector Pages.upload Home.file_text = Some 3
  ∧ (let st := Browser.run (Home.ready (load Pages.upload))
                           [Browser.Deliver 2 DragOverEvent] in
     hasClass (document (Browser.deliver 2 DragOverEvent st)) 2 "drag-over" = true
     ∧ hasClass (document (Browser.deliver 2 DragLeaveEvent st)) 2 "drag-over" = false
     ∧ (∀ fl, hasClass (document (Browser.deliver 2 (DropEvent fl) st)) 2 "drag-over"
              = false)).
Proof.
  do 3 (split; [by vm_compute|]).
  apply (drag_over_class_follows_the_drag Pages.upload 4 2 3); by vm_compute.
Defined.

(** C6 on the page that has no [.file-text]. *)
Lemma missing_file_text_skips_file_input :
  querySelector Pages.no_file_text Home.file_text = None
  ∧ Home.file_input_section (load Pages.no_file_text) = load Pages.no_file_text
  ∧ (∀ entry, entry ∈ listeners (Home.ready (load Pages.no_file_text)) →
              entry.2 = actionButton_click).
Proof.
  split; [by vm_compute|].
  apply (missing_element_skips_file_input Pages.no_file_text). right. right. by vm_compute.
Defined.

(** C3 on the page that fetches its table, for a body with two
    columns. *)
Lemma response_starts_widget_on_remote :
  let st := Home.ready (load Pages.remote) in
  let outcome :=
    Ajax.Succeeded
      (JS.Object [("columns", JS.Array [ JS.Object [("data", JS.Str "id")];
                                         JS.Object [("data", JS.Str "name")] ])]) in
  pending st !! 0 = Some Home.data_request
  ∧ (let st' := Browser.settle 0 outcome st in
     let started :=
       ∃ options,
         log st' = log st ++ [DataTable (DataTables.of_selector "#csvTable") options] in
     (started ↔
        ∃ json columns len,
          outcome = Ajax.Succeeded json
          ∧ JS.get json "columns" = inr columns ∧ JS.truthy columns = true
          ∧ JS.get columns "length" = inr len ∧ JS.strict_equals_zero len = false)
     ∧ (∀ json items,
          outcome = Ajax.Succeeded json → JS.get json "columns" = inr (JS.Array items) →
          (started ↔ items ≠ []))
     ∧ (¬ started → st' = Browser.forget 0 st)).
Proof.
  split; [by vm_compute|].
  apply (response_starts_widget (Home.ready (load Pages.remote)) 0). by vm_compute.
Defined.

(** C7 on the page that fetches its table. *)
Lemma widget_pages_through_data_on_remote :
  let st := Home.ready (load Pages.remote) in
  let columns := JS.Array [ JS.Object [("data", JS.Str "id")];
                            JS.Object [("data", JS.Str "name")] ] in
  let json := JS.Object [("columns", columns)] in
  let options := Home.serverSide_options columns in
  pending st !! 0 = Some Home.data_request
  ∧ log (Browser.settle 0 (Ajax.Succeeded json) st)
    = log st ++ [DataTable (DataTables.of_selector "#csvTable") options]
  ∧ DataTables.serverSide options = Some true
  ∧ DataTables.ajax options = Some "/data"
  ∧ (∃ columns', JS.get json "columns" = inr columns'
                 ∧ DataTables.columns options = Some columns')
  ∧ DataTables.pageLength options = Some 5%Z
  ∧ DataTables.lengthMenu options = Some [5; 10; 20; 50]%Z.
Proof.
  intros st columns json options.
  split; [by vm_compute|]. split; [by vm_compute|].
  apply (widget_pages_through_data st 0 json (DataTables.of_selector "#csvTable") options);
    by vm_compute.
Defined.

(** C8 on the upload page: a second click, 100 milliseconds after a
    first. *)
Lemma click_scales_then_resets_on_upload :
  querySelector Pages.upload Home.btn_large = Some 9
  ∧ (let st := Browser.run (Home.ready (load Pages.upload))
                           [Browser.Deliver 9 ClickEvent; Browser.Elapse 100] in
     let st1 := Browser.deliver 9 ClickEvent st in
     let timer := {| due := now st + 150; callback := reset_transform 9 |} in
     style_get (document st1) 9 "transform" = "scale(0.98)"
     ∧ (∀ p, p ≠ "transform" →
             style_get (document st1) 9 p = style_get (document st) 9 p)
     ∧ timers st1 = timers st ++ [timer]
     ∧ (∀ dt, (dt < 150)%N → timer ∈ timers (Browser.elapse dt st1))
     ∧ (let st2 := Browser.elapse 150 st1 in
        (timer ∉ timers st2)
        ∧ style_get (document st2) 9 "transform" = ""
        ∧ (∀ p, p ≠ "transform" →
                style_get (document st2) 9 p = style_get (document st) 9 p))).
Proof.
  split; [by vm_compute|].
  apply (click_scales_then_resets Pages.upload 9). by vm_compute.
Defined.

End worked.

(** * Further properties *)

(** ** The listeners of a page never change *)

Section listeners_kept.

Import DOM.

Lemma foldl_invariant {A} (Q : Page → Prop) (f : Page → A → Page) (l : list A) st :
  (∀ x st, x ∈ l → Q st → Q (f st x)) → Q st → Q (foldl f st l).
Proof.
  revert st. induction l as [|x l IH]; intros st Hf Hst; simpl; [done|].
  apply IH.
  - intros y st' Hy. apply Hf. by right.
  - apply Hf; [by left | done].
Qed.

Lemma listeners_change fileLabel fileText target st :
  listeners (Home.fileInput_change_listener fileLabel fileText target st) = listeners st.
Proof. unfold Home.fileInput_change_listener. by repeat case_match. Qed.

Lemma listeners_dispatch_change target st :
  listeners (Home.dispatch_change target st) = listeners st.
Proof.
  unfold Home.dispatch_change.
  apply (foldl_invariant (λ st', listeners st' = listeners st)); [|done].
  intros [n l] st' _ Hst'. destruct l; simpl; try done. by rewrite listeners_change.
Qed.

Lemma listeners_drop fileInput fileLabel fl st :
  listeners (Home.fileLabel_drop_listener fileInput fileLabel fl st) = listeners st.
Proof.
  unfold Home.fileLabel_drop_listener. destruct fl as [|file rest]; [done|].
  destruct (_ || _); [|done]. by rewrite listeners_dispatch_change.
Qed.

Lemma listeners_call_listener l this e st :
  listeners (Browser.call_listener l this e st) = listeners st.
Proof.
  destruct l, e; simpl; try done.
  - apply listeners_change.
  - apply listeners_drop.
Qed.

End listeners_kept.

(** ** What a stimulus is made of *)

(** Every stimulus acts on a page of the script through a few actions:
    a scripted write (the press of the button apart), a call of a
    listener, a click on the button, the end of a request, with or
    without the start of the widget, and the passing of time.  What
    these actions keep, every stimulus keeps. *)
Section step_induction.

Import DOM.

Context (d : Document) (P : Page → Prop).
Context (Hwrite : ∀ w st,
           scripted d w → (∀ b, w ≠ SetStyle b "transform" "scale(0.98)") →
           P st → P (on_document (perform w) st)).
Context (Hcall : ∀ c st, listener_call c → P st → P (call c st)).
Context (Hclick : ∀ b st, querySelector d Home.btn_large = Some b →
                          P st → P (Home.actionButton_click_listener b st)).
Context (Hforget : ∀ i st, is_Some (pending st !! i) → P st → P (Browser.forget i st)).
Context (Hstart : ∀ i columns st,
           is_Some (pending st !! i) → P st →
           P (call (DataTable (DataTables.of_selector "#csvTable")
                              (Home.serverSide_options columns))
                   (Browser.forget i st))).
Context (Hretime : ∀ kept t st,
           (∀ tm, tm ∈ kept → tm ∈ timers st) → (now st ≤ t)%N →
           P st → P (retime kept t st)).

Lemma change_keeps fileLabel fileText target st :
  querySelector d Home.file_input_label = Some fileLabel →
  P st → P (Home.fileInput_change_listener fileLabel fileText target st).
Proof.
  intros Hl Hst. unfold Home.fileInput_change_listener.
  destruct (head _) as [file|]; cbv zeta.
  - assert (P (on_document (style_set fileLabel "background" "var(--success-light)")
                 (on_document (style_set fileLabel "borderColor" "var(--success)")
                    (on_document (classList_add fileLabel "file-selected")
                       (on_document (textContent_set fileText (name file)) st))))) as H4.
    { apply (Hwrite (SetStyle fileLabel "background" "var(--success-light)")); [| by intros ? [=] |].
      { left. split; [done|]. right. by left. }
      apply (Hwrite (SetStyle fileLabel "borderColor" "var(--success)")); [| by intros ? [=] |].
      { left. split; [done|]. by left. }
      apply (Hwrite (AddClass fileLabel "file-selected")); [| by intros ? [=] |].
      { split; [done|]. by left. }
      apply (Hwrite (SetTextContent fileText (name file))); [done | by intros ? [=] | done]. }
    destruct (querySelector (document _) Home.file_info) as [fileInfo|]; [|done].
    destruct (querySelector_in _ _ _) as [filenameText|]; [|done].
    apply (Hwrite (SetTextContent filenameText (name file))); [done | by intros ? [=] | done].
  - apply (Hwrite (SetStyle fileLabel "background" "var(--input-bg)")); [| by intros ? [=] |].
    { left. split; [done|]. do 3 right. by left. }
    apply (Hwrite (SetStyle fileLabel "borderColor" "var(--primary)")); [| by intros ? [=] |].
    { left. split; [done|]. do 2 right. by left. }
    apply (Hwrite (RemoveClass fileLabel "file-selected")); [| by intros ? [=] |].
    { split; [done|]. by left. }
    apply (Hwrite (SetTextContent fileText "Choose CSV File")); [done | by intros ? [=] | done].
Qed.

Lemma dispatch_change_keeps target st :
  Forall (listener_wired d) (listeners st) →
  P st → P (Home.dispatch_change target st).
Proof.
  intros Hw Hst. unfold Home.dispatch_change. apply foldl_invariant.
  - intros [n l] st' [_ Hin]%list_elem_of_filter Hst'.
    rewrite Forall_forall in Hw. specialize (Hw _ Hin).
    destruct l; simpl; try done. by apply change_keeps.
  - by apply Hcall.
Qed.

Lemma drop_keeps fileInput fileLabel fl st :
  Forall (listener_wired d) (listeners st) →
  querySelector d Home.file_input_label = Some fileLabel →
  P st → P (Home.fileLabel_drop_listener fileInput fileLabel fl st).
Proof.
  intros Hw Hl Hst. unfold Home.fileLabel_drop_listener. cbv zeta.
  assert (P (on_document (classList_remove fileLabel "drag-over")
               (call (preventDefault "drop") st))) as H2.
  { apply (Hwrite (RemoveClass fileLabel "drag-over")); [| by intros ? [=] |].
    { split; [done|]. right. by left. }
    apply Hcall; [|done]. simpl. do 2 right. by left. }
  destruct fl as [|file rest]; [done|].
  destruct (_ || _).
  - apply dispatch_change_keeps; [done|].
    apply (Hwrite (SetFiles fileInput (file :: rest))); [done | by intros ? [=] | done].
  - by apply Hcall.
Qed.

Lemma call_listener_keeps l this e st :
  Forall (listener_wired d) (listeners st) →
  listener_wired d (this, l) →
  P st → P (Browser.call_listener l this e st).
Proof.
  intros Hw Hl Hst. destruct l, e; simpl; try done; unfold listener_wired in Hl; simpl in Hl.
  - by apply change_keeps.
  - unfold Home.fileLabel_dragover_listener.
    apply (Hwrite (AddClass fileLabel "drag-over")); [| by intros ? [=] |].
    { split; [done|]. right. by left. }
    apply Hcall; [|done]. by left.
  - unfold Home.fileLabel_dragleave_listener.
    apply (Hwrite (RemoveClass fileLabel "drag-over")); [| by intros ? [=] |].
    { split; [done|]. right. by left. }
    apply Hcall; [|done]. right. by left.
  - by apply drop_keeps.
  - by apply Hclick.
Qed.

Lemma deliver_keeps current e st :
  Forall (listener_wired d) (listeners st) →
  P st → P (Browser.deliver current e st).
Proof.
  intros Hw Hst. unfold Browser.deliver.
  apply (foldl_invariant (λ st', P st' ∧ listeners st' = listeners st)); [|done].
  intros [n l] st' [[Hn _] Hin]%list_elem_of_filter [Hst' Hl']. simpl in *. subst n.
  split; [|by rewrite listeners_call_listener].
  apply call_listener_keeps; [by rewrite Hl' | | done].
  rewrite Forall_forall in Hw. by apply Hw.
Qed.

Lemma elapse_keeps dt st : wired d st → P st → P (Browser.elapse dt st).
Proof.
  intros Hw Hst. unfold Browser.elapse. cbv zeta.
  change (mkPage (document st) (listeners st) (pending st) ?kept ?t (observed st) (log st))
    with (retime kept t st).
  apply foldl_invariant.
  - intros tm st' [_ Hin]%list_elem_of_filter Hst'.
    pose proof (wired_timers _ _ Hw) as Ht. rewrite Forall_forall in Ht.
    destruct (Ht _ Hin) as (b & -> & Hb & _). simpl.
    apply (Hwrite (SetStyle b "transform" "")); [| by intros ? [=] | done].
    right. left. split; [done|]. right. by left.
  - apply Hretime; [|lia|done]. by intros tm [_ Hin]%list_elem_of_filter.
Qed.

Lemma settle_keeps i outcome st : P st → P (Browser.settle i outcome st).
Proof.
  intros Hst. unfold Browser.settle.
  destruct (pending st !! i) as [settings|] eqn:Hi; [|done]. cbv zeta.
  assert (P (Browser.forget i st)) as Hf by (apply Hforget; [by rewrite Hi | done]).
  destruct outcome as [json|].
  - destruct (Ajax.success settings) as [[]|]; [|done]. simpl.
    unfold Home.init_csvTable.
    destruct (JS.get json "columns") as [[]|columns]; [done|].
    destruct (negb (JS.truthy columns)); [done|].
    destruct (JS.get columns "length") as [[]|len]; [done|].
    destruct (JS.strict_equals_zero len); [done|].
    apply Hstart; [by rewrite Hi | done].
  - by destruct (Ajax.error settings) as [[]|].
Qed.

Lemma intersect_keeps entries st : wired d st → P st → P (Browser.intersect entries st).
Proof.
  intros Hw Hst. unfold Browser.intersect, Home.animate_entries.
  apply foldl_invariant; [|done].
  intros [n b] st' [Hn _]%list_elem_of_filter Hst'. simpl in *.
  destruct b; [|done].
  apply (Hwrite (SetStyle n "animation" "slideInUp 0.6s ease-out")); [| by intros ? [=] | done].
  do 2 right. split; [|done].
  pose proof (wired_observed _ _ Hw) as Ho. rewrite Forall_forall in Ho. by apply Ho.
Qed.

(** What the actions keep, a stimulus keeps. *)
Lemma step_keeps st s : wired d st → P st → P (Browser.step st s).
Proof.
  intros Hw Hst. destruct s as [current e|input fl|dt|i outcome|entries]; simpl.
  - apply deliver_keeps; [apply Hw | done].
  - unfold Browser.choose. apply deliver_keeps; [apply Hw|].
    apply (Hwrite (SetFiles input fl)); [done | by intros ? [=] | done].
  - by apply elapse_keeps.
  - by apply settle_keeps.
  - by apply intersect_keeps.
Qed.

End step_induction.

(** ** The pages of the script are wired to its document *)

Section wired_facts.

Import DOM.

Implicit Types (d : Document) (st : Page).

Lemma wired_step d st s : wired d st → wired d (Browser.step st s).
Proof.
  intros Hw. apply (step_keeps d (wired d)); try done.
  - intros w st' _ _ [Hl Ht Ho]. by split.
  - intros c st' _ [Hl Ht Ho]. by split.
  - intros b st' Hb [Hl Ht Ho]. split; simpl; [done | | done].
    apply Forall_app. split; [done|]. repeat constructor. exists b. by repeat split.
  - intros i st' _ [Hl Ht Ho]. by split.
  - intros i columns st' _ [Hl Ht Ho]. by split.
  - intros kept t st' Hkept Hnow [Hl Ht Ho]. split; simpl; [done | | done].
    rewrite Forall_forall in Ht |- *. intros tm Hin.
    destruct (Ht tm (Hkept tm Hin)) as (b & Hcb & Hb & Hdue).
    exists b. repeat split; [done | done | lia].
Qed.

Lemma wired_run d stimuli st : wired d st → wired d (Browser.run st stimuli).
Proof.
  revert st. induction stimuli as [|s stimuli IH]; intros st Hw; simpl; [done|].
  by apply IH, wired_step.
Qed.

Lemma observed_observe_all cards st :
  observed (foldl (λ st card, Home.observer_observe card st) st cards)
  = observed st ++ cards.
Proof.
  revert st. induction cards as [|c cards IH]; intros st; simpl.
  - by rewrite app_nil_r.
  - rewrite IH. simpl. by rewrite <- app_assoc.
Qed.

Lemma observed_stat_cards_section st :
  observed (Home.stat_cards_section st)
  = observed st ++ querySelectorAll (document st) Home.stat_card.
Proof.
  unfold Home.stat_cards_section.
  destruct (querySelectorAll (document st) Home.stat_card) as [|c cards] eqn:E.
  - by rewrite app_nil_r.
  - simpl Nat.ltb. cbv iota. apply observed_observe_all.
Qed.

Lemma observed_ready d : observed (Home.ready (load d)) = querySelectorAll d Home.stat_card.
Proof.
  unfold Home.ready. rewrite observed_stat_cards_section.
  destruct (action_button_section_frame
              (Home.table_section (Home.file_input_section (load d)))) as (Hd3 & _).
  destruct (table_section_frame (Home.file_input_section (load d))) as (Hd2 & _).
  destruct (file_input_section_frame (load d)) as (Hd1 & _).
  rewrite Hd3, Hd2, Hd1.
  assert (observed (Home.action_button_section
                      (Home.table_section (Home.file_input_section (load d)))) = []) as ->.
  { unfold Home.action_button_section, Home.table_section, Home.file_input_section.
    by repeat case_match. }
  done.
Qed.

Lemma wired_ready d : wired d (Home.ready (load d)).
Proof.
  split.
  - rewrite listeners_ready, action_button_listeners. apply Forall_app. split.
    + unfold Home.file_input_section. simpl.
      destruct (getElementById d "csvFileInput") as [fileInput|]; [|by constructor].
      destruct (querySelector d Home.file_input_label) as [fileLabel|] eqn:Hl;
        [|by constructor].
      destruct (querySelector d Home.file_text) as [fileText|]; [|by constructor].
      simpl. by repeat constructor.
    + destruct (querySelector d Home.btn_large) as [b|] eqn:Hb; by repeat constructor.
  - rewrite timers_ready. constructor.
  - rewrite observed_ready. by apply Forall_forall.
Qed.

(** Every page reached from the script's is wired. *)
Lemma wired_reached d stimuli : wired d (Browser.run (Home.ready (load d)) stimuli).
Proof. apply wired_run, wired_ready. Qed.

(** What the actions keep and the page of the script has, every page
    reached from it has. *)
Lemma reached_keeps d (P : Page → Prop) :
  (∀ w st, scripted d w → (∀ b, w ≠ SetStyle b "transform" "scale(0.98)") →
           P st → P (on_document (perform w) st)) →
  (∀ c st, listener_call c → P st → P (call c st)) →
  (∀ b st, querySelector d Home.btn_large = Some b →
           P st → P (Home.actionButton_click_listener b st)) →
  (∀ i st, is_Some (pending st !! i) → P st → P (Browser.forget i st)) →
  (∀ i columns st,
     is_Some (pending st !! i) → P st →
     P (call (DataTable (DataTables.of_selector "#csvTable")
                        (Home.serverSide_options columns))
             (Browser.forget i st))) →
  (∀ kept t st,
     (∀ tm, tm ∈ kept → tm ∈ timers st) → (now st ≤ t)%N → P st → P (retime kept t st)) →
  P (Home.ready (load d)) →
  ∀ stimuli, P (Browser.run (Home.ready (load d)) stimuli).
Proof.
  intros Hwrite Hcall Hclick Hforget Hstart Hretime Hready stimuli.
  induction stimuli as [|s stimuli IH] using rev_ind; [done|].
  unfold Browser.run. rewrite foldl_app. simpl.
  apply (step_keeps d P); try done. apply wired_reached.
Qed.

End wired_facts.

(** ** What a write changes *)

Section write_facts.

Import DOM.

Implicit Types (d x : Document) (w : Write) (n m : handle) (t u p q v : string).

Lemma hasClass_perform w x n t :
  w ≠ AddClass n t → w ≠ RemoveClass n t →
  hasClass (perform w x) n t = hasClass x n t.
Proof.
  intros Hadd Hremove. destruct w as [m s|m u|m u|m q v|m fl]; simpl.
  - unfold textContent_set. by apply hasClass_update.
  - destruct (decide (u = t)) as [->|Hu]; [|by apply hasClass_classList_add_ne].
    assert (m ≠ n) as Hm by congruence.
    unfold hasClass, classList_add. by rewrite lookup_update, decide_False.
  - destruct (decide (u = t)) as [->|Hu]; [|by apply hasClass_classList_remove_ne].
    assert (m ≠ n) as Hm by congruence.
    unfold hasClass, classList_remove. by rewrite lookup_update, decide_False.
  - unfold style_set. by apply hasClass_update.
  - unfold files_set. by apply hasClass_update.
Qed.

(** The style declarations that the script writes. *)
Lemma scripted_style_cases d n q v :
  scripted d (SetStyle n q v) →
  (q, v) ∈ [ ("borderColor", "var(--success)"); ("background", "var(--success-light)");
             ("borderColor", "var(--primary)"); ("background", "var(--input-bg)");
             ("transform", "scale(0.98)"); ("transform", "");
             ("animation", "slideInUp 0.6s ease-out") ].
Proof.
  simpl. unfold label_styles, button_styles, card_style.
  rewrite !elem_of_cons, !elem_of_nil. intros [[_ Hin] | [[_ Hin] | [_ Hin]]]; tauto.
Qed.

(** The only declaration that the script removes stands alone. *)
Lemma scripted_removes d n q :
  scripted d (SetStyle n q "") → stands_alone q = true.
Proof.
  intros Hin%scripted_style_cases. rewrite !elem_of_cons, elem_of_nil in Hin.
  by destruct Hin as [[=] | [[=] | [[=] | [[=] | [[=] | [[= ->] | [[=] | []]]]]]]].
Qed.

(** After a write, a property reads as before, or as the write has
    declared it, or it is of the family of the shorthand written. *)
Lemma style_get_perform w x n p :
  (∀ q, w = SetStyle n q "" → stands_alone q = true) →
  style_get (perform w x) n p = style_get x n p
  ∨ (∃ v, w = SetStyle n p v ∧ style_get (perform w x) n p = v)
  ∨ (∃ shorthand v, w = SetStyle n shorthand v ∧ resets shorthand p = true).
Proof.
  intros Hremoves. destruct w as [m s|m u|m u|m q v|m fl]; simpl.
  - left. unfold textContent_set. by apply style_get_update.
  - left. unfold classList_add. by apply style_get_update.
  - left. unfold classList_remove. by apply style_get_update.
  - destruct (decide (m = n)) as [->|Hm]; [|left; by apply style_get_style_set_other].
    destruct (decide (q = p)) as [->|Hq].
    + destruct (heap x !! n) as [e|] eqn:He.
      * right. left. exists v. split; [done|].
        destruct (decide (v = "")) as [->|Hv].
        { apply style_get_style_set_empty; [by rewrite He | by apply Hremoves]. }
        apply style_get_style_set; [by rewrite He | done].
      * left. unfold style_get, style_set. rewrite lookup_update, decide_True by done.
        by rewrite He.
    + destruct (resets q p) eqn:Hr.
      * right. right. by exists q, v.
      * left. by apply style_get_style_set_ne.
  - left. unfold files_set. by apply style_get_update.
Qed.

Lemma length_perform w x : length (heap (perform w x)) = length (heap x).
Proof. destruct w; simpl; apply length_update. Qed.

(** What the scripted writes keep of a document, every stimulus keeps of
    the document of a page that is wired. *)
Lemma step_keeps_document d (Q : Document → Prop) st s :
  wired d st →
  (∀ w x, scripted d w → Q x → Q (perform w x)) →
  Q (document st) → Q (document (Browser.step st s)).
Proof.
  intros Hw Hwrite Hst.
  apply (step_keeps d (λ st', Q (document st'))); try done.
  - intros w st' Hs _ Hst'. simpl. by apply Hwrite.
  - intros b st' Hb Hst'. simpl.
    apply (Hwrite (SetStyle b "transform" "scale(0.98)")); [|done].
    right. left. split; [done|]. by left.
Qed.

End write_facts.

(** ** What the script never writes *)

Section never_written.

Import DOM.

(** X1. Whatever happens to a page after the script has run on it, the
    only class tokens that come or go are [file-selected] and
    [drag-over], and only on the element the script took as the
    label. *)
Theorem only_label_classes_change (d : Document) (stimuli : list Browser.Stimulus)
    (s : Browser.Stimulus) (n : handle) (t : string) :
  let st := Browser.run (Home.ready (load d)) stimuli in
  let st' := Browser.step st s in
  hasClass (document st') n t ≠ hasClass (document st) n t →
  querySelector d Home.file_input_label = Some n ∧ t ∈ script_classes.
Proof.
  intros st st'. subst st'.
  apply (step_keeps_document d
           (λ x, hasClass x n t ≠ hasClass (document st) n t →
                 querySelector d Home.file_input_label = Some n ∧ t ∈ script_classes));
    [apply wired_reached | | done].
  intros w x Hs Hclass Hne.
  destruct (decide (w = AddClass n t)) as [->|Hadd]; [done|].
  destruct (decide (w = RemoveClass n t)) as [->|Hremove]; [done|].
  apply Hclass. by rewrite <- (hasClass_perform w x n t).
Qed.


End never_written.

(** ** The cards *)

Section cards.

Import DOM.

(** X3. No stimulus takes the animation back: an element that has the
    inline animation [slideInUp 0.6s ease-out] in a page reached after
    the script has run has it in every page reached from there. *)
Theorem animation_stays (d : Document) (stimuli more : list Browser.Stimulus)
    (n : handle) :
  style_get (document (Browser.run (Home.ready (load d)) stimuli)) n "animation"
  = "slideInUp 0.6s ease-out" →
  style_get (document (Browser.run (Home.ready (load d)) (stimuli ++ more))) n "animation"
  = "slideInUp 0.6s ease-out".
Proof.
  intros Hset. induction more as [|s more IH] using rev_ind.
  - by rewrite app_nil_r.
  - rewrite app_assoc. unfold Browser.run. rewrite foldl_app. simpl.
    apply (step_keeps_document d
             (λ x, style_get x n "animation" = "slideInUp 0.6s ease-out"));
      [apply wired_reached | | exact IH].
    intros w x Hs Hx.
    destruct (style_get_perform w x n "animation")
      as [-> | [(v & -> & ->) | (shorthand & v & -> & Hr)]].
    + intros q ->. by eapply scripted_removes.
    + done.
    + apply scripted_style_cases in Hs. rewrite !elem_of_cons, elem_of_nil in Hs.
      by destruct Hs as [[=] | [[=] | [[=] | [[=] | [[=] | [[=] | [[= ->] | []]]]]]]].
    + apply scripted_style_cases in Hs. rewrite !elem_of_cons, elem_of_nil in Hs.
      by destruct Hs as [[= -> ->] | [[= -> ->] | [[= -> ->] | [[= -> ->] |
                         [[= -> ->] | [[= -> ->] | [[= -> ->] | []]]]]]]].
Qed.

(** X4. The function given to the observer gives the animation
    [slideInUp 0.6s ease-out] to the target of every entry that is
    intersecting, and writes nothing else: the style properties that are
    not of the family of [animation], which the shorthand sets with it,
    the style of the elements that are not such a target, the classes,
    the files and the log are as they were. *)
Theorem animate_entries_animates (entries : list (handle * bool)) (st : Page) :
  let st' := Home.animate_entries entries st in
  (∀ n, (n, true) ∈ entries → is_Some (heap (document st) !! n) →
        style_get (document st') n "animation" = "slideInUp 0.6s ease-out")
  ∧ (∀ n p, (n, true) ∉ entries ∨ (p ≠ "animation" ∧ resets "animation" p = false) →
            style_get (document st') n p = style_get (document st) n p)
  ∧ (∀ n t, hasClass (document st') n t = hasClass (document st) n t)
  ∧ (∀ n, files_get (document st') n = files_get (document st) n)
  ∧ log st' = log st.
Proof.
  unfold Home.animate_entries.
  induction entries as [|[m b] entries IH] using rev_ind; simpl.
  - repeat split; try done. by intros n ?%elem_of_nil.
  - rewrite foldl_app. simpl.
    destruct IH as (Hset & Hother & Hclass & Hfiles & Hlog).
    set (st1 := foldl _ st entries) in *.
    assert (∀ n, is_Some (heap (document st) !! n) → is_Some (heap (document st1) !! n))
      as Hvalid.
    { intros n. rewrite !lookup_lt_is_Some. intros Hn.
      enough (length (heap (document st1)) = length (heap (document st))) by lia.
      subst st1. apply (foldl_invariant
        (λ st', length (heap (document st')) = length (heap (document st)))); [|done].
      intros [k c] st' _ Hst'. destruct c; [|done].
      change (length (heap (style_set k "animation" "slideInUp 0.6s ease-out"
                              (document st'))) = length (heap (document st))).
      unfold style_set. by rewrite length_update. }
    destruct b; simpl.
    + split; [|split; [|split; [|split]]].
      * intros n Hin Hn. destruct (decide (n = m)) as [->|Hnm].
        { apply style_get_style_set; [by apply Hvalid | done]. }
        apply elem_of_app in Hin as [Hin | Hin%list_elem_of_singleton]; [|congruence].
        rewrite style_get_style_set_other by done.
        by apply Hset.
      * intros n p Hnp. rewrite <- Hother.
        2:{ destruct Hnp as [Hn | Hp]; [left | by right].
            intros Hin. apply Hn, elem_of_app. by left. }
        destruct Hnp as [Hn | [Hp Hr]]; [|by apply style_get_style_set_ne].
        assert (m ≠ n) as Hmn.
        { intros ->. apply Hn, elem_of_app. right. by left. }
        by apply style_get_style_set_other.
      * intros n t. unfold style_set. by rewrite hasClass_update.
      * intros n. unfold style_set. by rewrite files_get_update.
      * done.
    + split; [|split; [|done]].
      * intros n Hin Hn.
        apply elem_of_app in Hin as [Hin | Hin%list_elem_of_singleton]; [|congruence].
        by apply Hset.
      * intros n p Hnp. apply Hother.
        destruct Hnp as [Hn | Hp]; [left | by right].
        intros Hin. apply Hn, elem_of_app. by left.
Qed.

End cards.

(** ** The press of the button ends *)

Section press_ends.

Import DOM.

Context (d : Document) (actionButton : handle).
Context (HactionButton : querySelector d Home.btn_large = Some actionButton).

Implicit Types (st : Page) (stimuli : list Browser.Stimulus).

Lemma press_pending_write w st :
  scripted d w → (∀ b, w ≠ SetStyle b "transform" "scale(0.98)") →
  button_press_pending d actionButton st →
  button_press_pending d actionButton (on_document (perform w) st).
Proof.
  intros Hs Hpress [Hlen Ht]. split; simpl; [by rewrite length_perform|].
  destruct (style_get_perform w (document st) actionButton "transform")
    as [-> | [(v & -> & Hv) | (shorthand & v & -> & Hr)]].
  - intros q ->. by eapply scripted_removes.
  - done.
  - right. left. rewrite Hv.
    apply scripted_style_cases in Hs. rewrite !elem_of_cons, elem_of_nil in Hs.
    destruct Hs as [[=] | [[=] | [[=] | [[=] | [[= ->] | [[= ->] | [[=] | []]]]]]]]; [|done].
    exfalso. by apply (Hpress actionButton).
  - exfalso. apply scripted_style_cases in Hs. rewrite !elem_of_cons, elem_of_nil in Hs.
    by destruct Hs as [[= -> ->] | [[= -> ->] | [[= -> ->] | [[= -> ->] |
                       [[= -> ->] | [[= -> ->] | [[= -> ->] | []]]]]]]].
Qed.

Lemma press_pending_click b st :
  querySelector d Home.btn_large = Some b →
  button_press_pending d actionButton st →
  button_press_pending d actionButton (Home.actionButton_click_listener b st).
Proof.
  intros Hb [Hlen Ht]. assert (b = actionButton) as -> by congruence.
  split.
  { change (length (heap (style_set actionButton "transform" "scale(0.98)" (document st)))
            = length (heap d)).
    unfold style_set. by rewrite length_update. }
  right. right. split.
  - change (style_get (style_set actionButton "transform" "scale(0.98)" (document st))
                      actionButton "transform" = "scale(0.98)").
    apply style_get_style_set; [|done]. apply lookup_lt_is_Some_2. rewrite Hlen.
    by apply lookup_lt_is_Some_1, (querySelector_is_Some d Home.btn_large).
  - simpl. by intros [_ [=]]%app_eq_nil.
Qed.

Lemma timers_of_button st :
  wired d st → Forall (λ tm, callback tm = reset_transform actionButton) (timers st).
Proof.
  intros Hw. eapply Forall_impl; [apply (wired_timers _ _ Hw)|].
  intros tm (b & -> & Hb & _). congruence.
Qed.

Lemma press_pending_elapse dt st :
  wired d st → button_press_pending d actionButton st →
  button_press_pending d actionButton (Browser.elapse dt st).
Proof.
  intros Hw [Hlen Ht]. unfold Browser.elapse. cbv zeta.
  set (fired := filter (λ tm, (due tm ≤ now st + dt)%N) (timers st)).
  set (kept := filter (λ tm, (now st + dt < due tm)%N) (timers st)).
  set (st0 := mkPage _ _ _ _ _ _ _).
  destruct (fire_resets actionButton fired st0) as (Htimers & Hvalid & _ & Hreset).
  { pose proof (timers_of_button st Hw) as Hall. subst fired.
    rewrite Forall_forall in Hall |- *. intros tm [_ Hin]%list_elem_of_filter. auto. }
  { apply lookup_lt_is_Some_2. simpl. rewrite Hlen.
    by apply lookup_lt_is_Some_1, (querySelector_is_Some d Home.btn_large). }
  split.
  { apply lookup_lt_is_Some in Hvalid.
    assert (length (heap (document (foldl
              (λ st tm, Browser.run_timer (callback tm) st) st0 fired)))
            = length (heap (document st0))) as ->; [|done].
    apply (foldl_invariant
             (λ st', length (heap (document st')) = length (heap (document st0)))); [|done].
    intros [t [b]] st' _ Hst'.
    change (length (heap (style_set b "transform" "" (document st')))
            = length (heap (document st0))).
    unfold style_set. by rewrite length_update. }
  destruct fired as [|tm fired'] eqn:Hfired.
  - simpl. destruct Ht as [Ht | [Ht | [Ht Hne]]]; [by left | by right; left |].
    right. right. split; [done|].
    assert (kept = timers st) as ->; [|done].
    subst kept. rewrite <- (filter_nil_all _ _ Hfired) at 2.
    apply list_filter_iff. intros tm. lia.
  - right. left. by apply Hreset.
Qed.

(** The invariant of the press in the pages reached from the script's. *)
Lemma press_pending_reached stimuli :
  button_press_pending d actionButton (Browser.run (Home.ready (load d)) stimuli).
Proof.
  induction stimuli as [|s stimuli IH] using rev_ind.
  - unfold Browser.run. cbn [foldl]. split; rewrite document_ready; [done | by left].
  - unfold Browser.run. rewrite foldl_app. simpl.
    fold (Browser.run (Home.ready (load d)) stimuli).
    pose proof (wired_reached d stimuli) as Hw.
    set (st := Browser.run (Home.ready (load d)) stimuli) in *.
    assert (∀ c st', (button_press_pending d actionButton) st' → (button_press_pending d actionButton) (call c st')) as Hcall by done.
    destruct s as [current e|input fl|dt|i outcome|entries]; simpl.
    + apply (deliver_keeps d (button_press_pending d actionButton)); try done.
      * apply press_pending_write.
      * apply press_pending_click.
      * apply Hw.
    + unfold Browser.choose. apply (deliver_keeps d (button_press_pending d actionButton)); try done.
      * apply press_pending_write.
      * apply press_pending_click.
      * apply Hw.
      * apply (press_pending_write (SetFiles input fl)); [done | by intros ? [=] | done].
    + by apply press_pending_elapse.
    + by apply (settle_keeps (button_press_pending d actionButton)).
    + apply (intersect_keeps d (button_press_pending d actionButton)); [apply press_pending_write | done | done].
Qed.

(** X5. The press of the button never stays.  In every page reached
    after the script has run on a document with a [.btn.large], once 150
    milliseconds pass with nothing else happening no timer is pending,
    and the transform of the button is the empty string or what the
    document had before the script: it is not the press, unless the
    document came with it. *)
Theorem press_ends_within_150ms stimuli :
  let st := Browser.elapse 150 (Browser.run (Home.ready (load d)) stimuli) in
  timers st = []
  ∧ (style_get (document st) actionButton "transform" = ""
     ∨ style_get (document st) actionButton "transform"
       = style_get d actionButton "transform").
Proof.
  pose proof (wired_reached d stimuli) as Hw.
  pose proof (press_pending_reached stimuli) as [Hlen Ht].
  set (st0 := Browser.run (Home.ready (load d)) stimuli) in *.
  intros st. subst st. unfold Browser.elapse. cbv zeta.
  assert (∀ tm, tm ∈ timers st0 → (due tm ≤ now st0 + 150)%N) as Hdue.
  { pose proof (wired_timers _ _ Hw) as Hall. rewrite Forall_forall in Hall.
    intros tm Hin. by destruct (Hall tm Hin) as (b & _ & _ & Hle). }
  rewrite (filter_none (λ tm, (now st0 + 150 < due tm)%N))
    by (intros tm Hin; specialize (Hdue tm Hin); lia).
  rewrite (filter_all (λ tm, (due tm ≤ now st0 + 150)%N)) by done.
  set (st1 := mkPage _ _ _ _ _ _ _).
  destruct (fire_resets actionButton (timers st0) st1) as (Htimers & _ & _ & Hreset).
  { by apply timers_of_button. }
  { apply lookup_lt_is_Some_2. simpl. rewrite Hlen.
    by apply lookup_lt_is_Some_1, (querySelector_is_Some d Home.btn_large). }
  split; [by rewrite Htimers|].
  destruct (timers st0) as [|tm rest] eqn:Ht0.
  - simpl. destruct Ht as [Ht | [Ht | [_ Hne]]]; [by right | by left | done].
  - left. by apply Hreset.
Qed.

End press_ends.

(** ** The calls that follow the run of the script *)

Section calls.

Import DOM.

Implicit Types (d : Document) (st : Page) (c : Call).

Lemma log_dispatch_change target st :
  log (Home.dispatch_change target st) = log st ++ [dispatchEvent target "change"].
Proof.
  unfold Home.dispatch_change.
  apply (foldl_invariant
           (λ st', log st' = log st ++ [dispatchEvent target "change"])); [|done].
  intros [n l] st' _ Hst'. destruct l; simpl; try done.
  destruct (change_listener_frame fileLabel fileText target st') as (-> & _). done.
Qed.

Lemma log_call_listener l this e st :
  log (Browser.call_listener l this e st) = log st ++ calls_of l e.
Proof.
  destruct l, e as [target| | |dropped|]; try (simpl; rewrite ?app_nil_r; done).
  - simpl. rewrite app_nil_r.
    by destruct (change_listener_frame fileLabel fileText target st) as (-> & _).
  - unfold Browser.call_listener, Home.fileLabel_drop_listener, calls_of.
    destruct dropped as [|file rest]; [reflexivity|].
    destruct (_ || _).
    + rewrite log_dispatch_change. simpl. by rewrite <- app_assoc.
    + simpl. by rewrite <- app_assoc.
Qed.

Lemma log_deliver current e st :
  log (Browser.deliver current e st)
  = log st ++ mjoin ((λ entry, calls_of entry.2 e) <$> listeners_for current (event_type e) st).
Proof.
  unfold Browser.deliver. generalize (listeners_for current (event_type e) st).
  intros l. revert st. induction l as [|entry l IH]; intros st; simpl.
  - by rewrite app_nil_r.
  - rewrite IH, log_call_listener. by rewrite <- app_assoc.
Qed.

Lemma log_elapse dt st : log (Browser.elapse dt st) = log st.
Proof.
  unfold Browser.elapse. apply (foldl_invariant (λ st', log st' = log st)); [|done].
  by intros [t [b]] st' _ Hst'.
Qed.

Lemma log_intersect entries st : log (Browser.intersect entries st) = log st.
Proof.
  unfold Browser.intersect, Home.animate_entries.
  apply (foldl_invariant (λ st', log st' = log st)); [|done].
  intros [n b] st' _ Hst'. by destruct b.
Qed.

Lemma alert_in_calls_of l e message :
  alert message ∈ calls_of l e →
  message = "Please select a CSV file."
  ∧ ∃ file rest, e = DropEvent (file :: rest)
                 ∧ type file ≠ "text/csv" ∧ ¬ JSString.ends_in (name file) ".csv".
Proof.
  destruct l, e as [target| | |dropped|]; simpl; try (by intros ?%elem_of_nil).
  - by intros [=]%list_elem_of_singleton.
  - by intros [=]%list_elem_of_singleton.
  - destruct dropped as [|file rest]; [by intros [=]%list_elem_of_singleton|].
    destruct (String.eqb (type file) "text/csv") eqn:Htype; simpl.
    { rewrite !elem_of_cons, elem_of_nil. by intros [[=] | [[=] | []]]. }
    destruct (JSString.endsWith (name file) ".csv") eqn:Hname.
    { rewrite !elem_of_cons, elem_of_nil. by intros [[=] | [[=] | []]]. }
    rewrite !elem_of_cons, elem_of_nil. intros [[=] | [[= ->] | []]].
    split; [done|]. exists file, rest. split; [done|]. split.
    + by apply String.eqb_neq.
    + rewrite <- endsWith_spec. by rewrite Hname.
Qed.

(** X6. An alert is shown by one thing only.  On any page, a stimulus
    adds calls at the end of the log, and there is an alert among them
    only if the stimulus is a drop of a list of files whose first file
    has neither the type [text/csv] nor a name that ends in [.csv]; the
    message is then [Please select a CSV file.]. *)
Theorem alert_only_on_drop_of_other_file (st : Page) (s : Browser.Stimulus) :
  ∃ added,
    log (Browser.step st s) = log st ++ added
    ∧ ∀ message,
        alert message ∈ added →
        message = "Please select a CSV file."
        ∧ ∃ n file rest,
            s = Browser.Deliver n (DropEvent (file :: rest))
            ∧ type file ≠ "text/csv" ∧ ¬ JSString.ends_in (name file) ".csv".
Proof.
  destruct s as [current e|input fl|dt|i outcome|entries]; simpl.
  - eexists. split; [apply log_deliver|].
    intros message (calls & Hin & (entry & -> & _)%list_elem_of_fmap)%list_elem_of_join.
    destruct (alert_in_calls_of _ _ _ Hin) as (-> & file & rest & -> & Htype & Hname).
    split; [done|]. by exists current, file, rest.
  - exists []. unfold Browser.choose. rewrite log_deliver. split; [|by intros ? ?%elem_of_nil].
    simpl. f_equal. generalize (listeners_for input "change"
                                  (on_document (files_set input fl) st)).
    intros l. induction l as [|[n []] l IH]; simpl; by rewrite ?IH.
  - exists []. rewrite log_elapse, app_nil_r. split; [done | by intros ? ?%elem_of_nil].
  - unfold Browser.settle. destruct (pending st !! i) as [settings|].
    2:{ exists []. rewrite app_nil_r. split; [done | by intros ? ?%elem_of_nil]. }
    destruct outcome as [json|].
    + destruct (Ajax.success settings) as [[]|].
      2:{ exists []. rewrite app_nil_r. split; [done | by intros ? ?%elem_of_nil]. }
      simpl.
      destruct (init_csvTable_cases json (Browser.forget i st))
        as [(columns & len & _ & _ & _ & _ & ->) | [_ [-> | ->]]].
      * eexists. split; [done|]. by intros ? [=]%list_elem_of_singleton.
      * exists []. rewrite app_nil_r. split; [done | by intros ? ?%elem_of_nil].
      * exists []. rewrite app_nil_r. split; [done | by intros ? ?%elem_of_nil].
    + destruct (Ajax.error settings) as [[]|].
      exists []. rewrite app_nil_r. split; [done | by intros ? ?%elem_of_nil].
  - exists []. rewrite log_intersect, app_nil_r. split; [done | by intros ? ?%elem_of_nil].
Qed.

Lemma requests_observe cards : requests (observe <$> cards) = [].
Proof. by induction cards. Qed.

Lemma widgets_observe cards : widgets (observe <$> cards) = [].
Proof. by induction cards. Qed.

Lemma requests_snoc l c :
  requests (l ++ [c]) = requests l ++ match c with
                                      | ajax settings => [settings]
                                      | _ => []
                                      end.
Proof. unfold requests. rewrite omap_app. by destruct c. Qed.

Lemma widgets_snoc l c :
  widgets (l ++ [c]) = widgets l ++ match c with
                                    | DataTable target options => [(target, options)]
                                    | _ => []
                                    end.
Proof. unfold widgets. rewrite omap_app. by destruct c. Qed.

Lemma requests_call c st :
  listener_call c → requests (log (call c st)) = requests (log st).
Proof.
  intros Hc. change (log (call c st)) with (log st ++ [c]). rewrite requests_snoc.
  destruct c; try done; apply app_nil_r.
Qed.

Lemma widgets_call c st :
  listener_call c → widgets (log (call c st)) = widgets (log st).
Proof.
  intros Hc. change (log (call c st)) with (log st ++ [c]). rewrite widgets_snoc.
  destruct c; try done; apply app_nil_r.
Qed.

(** X7. The script sends one request at most, the GET of [/data], and
    sends it while it runs: whatever happens to the page afterwards, no
    listener, timer or callback sends another, and the answer to the
    request is never followed by a second try. *)
Theorem no_request_after_the_script (d : Document) (stimuli : list Browser.Stimulus) :
  let st := Browser.run (Home.ready (load d)) stimuli in
  requests (log st) = requests (log (Home.ready (load d)))
  ∧ (requests (log st) = [] ∨ requests (log st) = [Home.data_request]).
Proof.
  intros st.
  assert (requests (log st) = requests (log (Home.ready (load d)))) as ->.
  { subst st. apply (reached_keeps d
      (λ st', requests (log st') = requests (log (Home.ready (load d))))); try done.
    - intros c st' Hc Hst'. by rewrite requests_call.
    - intros i columns st' _ Hst'. rewrite <- Hst'.
      exact (eq_trans (requests_snoc (log st') (DataTable _ _)) (app_nil_r _)). }
  split; [done|]. rewrite log_ready. unfold requests. rewrite omap_app.
  fold (requests (observe <$> querySelectorAll d Home.stat_card)).
  rewrite requests_observe, app_nil_r.
  unfold Home.table_section. simpl.
  destruct (Home.find_tableEl d) as [tableEl|]; [|by left].
  destruct (Home.parent_is_csvTableContainer d tableEl); [by left | by right].
Qed.

(** X8. The widget is started once at most.  In every page reached after
    the script has run, the widgets started and the requests that are
    pending are one at most together, and a pending request is the GET of
    [/data]: a page whose table was rendered by the server never gets a
    second widget from an answer, and one answer starts one widget. *)
Theorem widget_started_once_at_most (d : Document) (stimuli : list Browser.Stimulus) :
  let st := Browser.run (Home.ready (load d)) stimuli in
  (length (widgets (log st)) + length (pending st) ≤ 1)%nat
  ∧ ∀ settings, settings ∈ pending st → settings = Home.data_request.
Proof.
  intros st. subst st.
  apply (reached_keeps d
    (λ st', (length (widgets (log st')) + length (pending st') ≤ 1)%nat
            ∧ ∀ settings, settings ∈ pending st' → settings = Home.data_request));
    try done.
  - intros c st' Hc [Hst' Hp]. split; [|done]. by rewrite widgets_call.
  - intros i st' Hi [Hst' Hp]. simpl. split.
    + rewrite length_delete by done. lia.
    + intros settings Hin%list_elem_of_delete_inv. by apply Hp.
  - intros i columns st' Hi [Hst' Hp]. simpl. split.
    + rewrite widgets_snoc, length_app, length_delete by done. simpl.
      apply lookup_lt_is_Some_1 in Hi. lia.
    + intros settings Hin%list_elem_of_delete_inv. by apply Hp.
  - rewrite log_ready, pending_ready. unfold widgets. rewrite omap_app, length_app.
    fold (widgets (observe <$> querySelectorAll d Home.stat_card)).
    rewrite widgets_observe. unfold Home.table_section. simpl.
    destruct (Home.find_tableEl d) as [tableEl|].
    2:{ simpl. split; [lia | by intros ? ?%elem_of_nil]. }
    destruct (Home.parent_is_csvTableContainer d tableEl); simpl.
    + split; [lia | by intros ? ?%elem_of_nil].
    + split; [lia | by intros ? ->%list_elem_of_singleton].
Qed.

(** X9. Whichever way it is started, the widget has the same look: every
    widget started in a page reached after the script has run shows 5
    rows a page, offers the page lengths 5, 10, 20 and 50, has
    [autoWidth] off and [responsive] on, and has the texts and the layout
    of the script.  It is the one of the table the server rendered, with
    the options of that path, or the one of [#csvTable], with the columns
    of an answer. *)
Theorem widgets_look_the_same (d : Document) (stimuli : list Browser.Stimulus)
    (target : DataTables.JQuery) (options : DataTables.Options) :
  DataTable target options ∈ log (Browser.run (Home.ready (load d)) stimuli) →
  DataTables.pageLength options = Some 5%Z
  ∧ DataTables.lengthMenu options = Some [5; 10; 20; 50]%Z
  ∧ DataTables.autoWidth options = Some false
  ∧ DataTables.responsive options = Some true
  ∧ DataTables.language options = Some Home.language
  ∧ DataTables.dom options = Some Home.dom_layout
  ∧ ((∃ tableEl, Home.find_tableEl d = Some tableEl
                 ∧ Home.parent_is_csvTableContainer d tableEl = true
                 ∧ target = DataTables.of_element tableEl
                 ∧ options = Home.prerendered_options)
     ∨ (∃ columns, target = DataTables.of_selector "#csvTable"
                   ∧ options = Home.serverSide_options columns)).
Proof.
  revert target options.
  apply (reached_keeps d
    (λ st', ∀ target options,
       DataTable target options ∈ log st' →
       DataTables.pageLength options = Some 5%Z
       ∧ DataTables.lengthMenu options = Some [5; 10; 20; 50]%Z
       ∧ DataTables.autoWidth options = Some false
       ∧ DataTables.responsive options = Some true
       ∧ DataTables.language options = Some Home.language
       ∧ DataTables.dom options = Some Home.dom_layout
       ∧ ((∃ tableEl, Home.find_tableEl d = Some tableEl
                      ∧ Home.parent_is_csvTableContainer d tableEl = true
                      ∧ target = DataTables.of_element tableEl
                      ∧ options = Home.prerendered_options)
          ∨ (∃ columns, target = DataTables.of_selector "#csvTable"
                        ∧ options = Home.serverSide_options columns)))); try done.
  - intros c st' Hc Hst' target options [Hin | Hin%list_elem_of_singleton]%elem_of_app.
    + by apply Hst'.
    + by subst c.
  - intros i columns st' _ Hst' target options
      [Hin | [= -> ->]%list_elem_of_singleton]%elem_of_app.
    + by apply Hst'.
    + repeat split; try done. right. by exists columns.
  - intros target options. rewrite log_ready.
    intros [Hin | (card & [=] & _)%list_elem_of_fmap]%elem_of_app.
    revert Hin. unfold Home.table_section. simpl.
    destruct (Home.find_tableEl d) as [tableEl|] eqn:HtableEl; [|by intros ?%elem_of_nil].
    destruct (Home.parent_is_csvTableContainer d tableEl) eqn:Hparent; simpl.
    + intros [= -> ->]%list_elem_of_singleton. repeat split; try done.
      left. by exists tableEl.
    + by intros [=]%list_elem_of_singleton.
Qed.

End calls.

(** ** The label, after a change *)

Section label_feedback.

Import DOM.

Implicit Types (d x : Document) (st : Page) (n m : handle) (p q v t : string).

Lemma lookup_update_ne f n x m : n ≠ m → heap (update f n x) !! m = heap x !! m.
Proof. intros Hnm. by rewrite lookup_update, decide_False. Qed.


(** What the listener writes when no file is selected: the text and the
    label, nothing else. *)
Lemma change_listener_cleared_elsewhere fileLabel fileText target st n :
  head (files_get (document st) target) = None →
  n ≠ fileText → n ≠ fileLabel →
  heap (document (Home.fileInput_change_listener fileLabel fileText target st)) !! n
  = heap (document st) !! n.
Proof.
  intros Hnone Ht Hl. unfold Home.fileInput_change_listener. rewrite Hnone.
  cbn [document on_document].
  unfold style_set, classList_remove, textContent_set.
  by rewrite !lookup_update_ne.
Qed.

(** The document that the listener leaves depends on the document it
    finds only. *)
Lemma change_listener_document fileLabel fileText target st1 st2 :
  document st1 = document st2 →
  document (Home.fileInput_change_listener fileLabel fileText target st1)
  = document (Home.fileInput_change_listener fileLabel fileText target st2).
Proof.
  intros H. unfold Home.fileInput_change_listener. rewrite H.
  destruct (head _) as [file|]; cbn [document on_document]; rewrite H; [|done].
  repeat case_match; cbn [document on_document]; by rewrite ?H.
Qed.

Lemma document_eq x y :
  documentElement x = documentElement y → (∀ n, heap x !! n = heap y !! n) → x = y.
Proof. destruct x, y; simpl. intros -> H. f_equal. by apply list_eq. Qed.

Lemma tokens_remove_tokens_add t tokens :
  contains tokens t = false → tokens_remove t (tokens_add t tokens) = tokens.
Proof.
  intros Ht. unfold tokens_add, tokens_remove. rewrite Ht, filter_app.
  rewrite filter_cons_False, filter_nil, app_nil_r by (by intros []).
  apply filter_all. intros u Hu ->.
  apply bool_decide_eq_false in Ht. done.
Qed.

Lemma tokens_add_tokens_add t tokens :
  tokens_add t (tokens_add t tokens) = tokens_add t tokens.
Proof.
  unfold tokens_add at 1. by rewrite contains_tokens_add.
Qed.

(** The class comes and goes: added to an element that did not have it
    and removed again, it leaves the document as it was. *)
Lemma classList_remove_classList_add n t x :
  hasClass x n t = false → classList_remove n t (classList_add n t x) = x.
Proof.
  intros Hc. apply document_eq; [done|]. intros m.
  unfold classList_remove, classList_add. rewrite !lookup_update.
  case_decide as Hnm; [|done]. subst m. unfold hasClass in Hc.
  destruct (heap x !! n) as [e|]; [|done]. simpl. f_equal.
  unfold with_classList at 1. destruct e. simpl in *. unfold with_classList. simpl.
  by rewrite tokens_remove_tokens_add.
Qed.

Lemma classList_add_classList_add n t x :
  classList_add n t (classList_add n t x) = classList_add n t x.
Proof.
  apply document_eq; [done|]. intros m.
  unfold classList_add. rewrite !lookup_update.
  case_decide as Hnm; [|done]. subst m.
  destruct (heap x !! n) as [e|]; [|done]. simpl. f_equal.
  destruct e. unfold with_classList. simpl. by rewrite tokens_add_tokens_add.
Qed.

End label_feedback.

Section file_input_feedback.

Import DOM.

Context (d : Document) (fileInput fileLabel fileText : handle).
Context (HfileInput : getElementById d "csvFileInput" = Some fileInput).
Context (HfileLabel : querySelector d Home.file_input_label = Some fileLabel).
Context (HfileText : querySelector d Home.file_text = Some fileText).

Implicit Types (st : Page) (stimuli : list Browser.Stimulus).


(** X11. In every page reached after the script has run, a change event
    of [#csvFileInput] when [files[0]] is absent writes to the
    [.file-text] and to the label only: every other element is as it
    was.  An element that held a text, as the [.filename-text] of the
    summary holds the name of the file selected before, still shows it. *)
Theorem cleared_input_keeps_summary stimuli :
  let st := Browser.run (Home.ready (load d)) stimuli in
  let st' := Browser.deliver fileInput (ChangeEvent fileInput) st in
  head (files_get (document st) fileInput) = None →
  (∀ n, n ≠ fileText → n ≠ fileLabel → heap (document st') !! n = heap (document st) !! n)
  ∧ (∀ n s, n ≠ fileText → n ≠ fileLabel →
            holds_text (document st) n s → textContent (document st') n = s).
Proof.
  intros st st' Hnone. subst st'.
  rewrite (deliver_change d fileInput fileLabel fileText)
    by (done || apply listeners_reached).
  assert (∀ n, n ≠ fileText → n ≠ fileLabel →
               heap (document (Home.fileInput_change_listener fileLabel fileText fileInput st))
                 !! n = heap (document st) !! n) as Hsame.
  { intros n Ht Hl. by apply change_listener_cleared_elsewhere. }
  split; [done|]. intros n s Ht Hl (e & He & Hs).
  apply holds_text_textContent. exists e. by rewrite Hsame.
Qed.

(** X12. In every page reached after the script has run in which the
    label does not have the class [drag-over], a dragover event on the
    label followed by a dragleave event leaves the document as it was;
    each of the two listeners has prevented the default action. *)
Theorem drag_that_leaves_changes_nothing stimuli :
  let st := Browser.run (Home.ready (load d)) stimuli in
  let st' := Browser.deliver fileLabel DragLeaveEvent
               (Browser.deliver fileLabel DragOverEvent st) in
  hasClass (document st) fileLabel "drag-over" = false →
  document st' = document st
  ∧ log st' = log st ++ [preventDefault "dragover"; preventDefault "dragleave"].
Proof.
  intros st st' Hc. subst st'.
  rewrite (deliver_dragover d fileInput fileLabel fileText)
    by (done || apply listeners_reached).
  rewrite (deliver_dragleave d fileInput fileLabel fileText)
    by (done || apply listeners_reached).
  unfold Home.fileLabel_dragleave_listener, Home.fileLabel_dragover_listener.
  cbn [document on_document call log]. split.
  - by apply classList_remove_classList_add.
  - by rewrite <- app_assoc.
Qed.

(** X13. A drag that stays over the label brings one dragover event after
    another; in every page reached after the script has run, the second
    of two leaves the document as the first has left it. *)
Theorem dragover_again_changes_nothing stimuli :
  let st := Browser.deliver fileLabel DragOverEvent
              (Browser.run (Home.ready (load d)) stimuli) in
  document (Browser.deliver fileLabel DragOverEvent st) = document st.
Proof.
  intros st. subst st.
  rewrite (deliver_dragover d fileInput fileLabel fileText HfileInput HfileLabel HfileText
             (Browser.run (Home.ready (load d)) stimuli))
    by apply listeners_reached.
  rewrite (deliver_dragover d fileInput fileLabel fileText)
    by (done || exact (listeners_reached d stimuli)).
  unfold Home.fileLabel_dragover_listener. cbn [document on_document call].
  apply classList_add_classList_add.
Qed.

(** X14. In every page reached after the script has run, the drop of a
    list of files whose first is a CSV file leaves the document that the
    choice of those files in the file input leaves, once the class
    [drag-over] is off the label. *)
Theorem drop_of_csv_file_is_a_choice stimuli file rest :
  type file = "text/csv" ∨ JSString.ends_in (name file) ".csv" →
  let st := Browser.run (Home.ready (load d)) stimuli in
  document (Browser.deliver fileLabel (DropEvent (file :: rest)) st)
  = document (Browser.choose fileInput (file :: rest)
                (on_document (classList_remove fileLabel "drag-over") st)).
Proof.
  intros Hcsv st.
  rewrite (deliver_drop d fileInput fileLabel fileText)
    by (done || apply listeners_reached).
  unfold Home.fileLabel_drop_listener, Browser.choose.
  assert (String.eqb (type file) "text/csv" || JSString.endsWith (name file) ".csv" = true)
    as -> by (apply orb_true_iff; rewrite String.eqb_eq, endsWith_spec; done).
  rewrite (dispatch_change_fileInput d fileInput fileLabel fileText)
    by (done || apply listeners_reached).
  rewrite (deliver_change d fileInput fileLabel fileText)
    by (done || apply listeners_reached).
  by apply change_listener_document.
Qed.

End file_input_feedback.

(** ** Where the files change, and which events are heard *)

Section heard.

Import DOM.

Implicit Types (d : Document) (st : Page) (n m : handle).

Lemma files_dispatch_change target st n :
  files_get (document (Home.dispatch_change target st)) n = files_get (document st) n.
Proof.
  unfold Home.dispatch_change.
  apply (foldl_invariant (λ st', files_get (document st') n = files_get (document st) n));
    [|done].
  intros [m l] st' _ Hst'. destruct l; simpl; try done.
  destruct (change_listener_frame fileLabel fileText target st') as (_ & Hf & _).
  by rewrite Hf.
Qed.

(** A listener changes the [files] of an element only when it is the
    drop listener and a CSV file comes first among the files dropped. *)
Lemma call_listener_files l this e st n :
  files_get (document (Browser.call_listener l this e st)) n ≠ files_get (document st) n →
  ∃ fileLabel file rest,
    l = fileLabel_drop n fileLabel ∧ e = DropEvent (file :: rest)
    ∧ (type file = "text/csv" ∨ JSString.ends_in (name file) ".csv").
Proof.
  destruct l, e as [target| | |dropped|]; try (by intros []); intros Hne.
  - exfalso. apply Hne. simpl.
    by destruct (change_listener_frame fileLabel fileText target st) as (_ & -> & _).
  - exfalso. apply Hne. simpl. unfold classList_add. by apply files_get_update.
  - exfalso. apply Hne. simpl. unfold classList_remove. by apply files_get_update.
  - revert Hne. unfold Browser.call_listener, Home.fileLabel_drop_listener. cbv zeta.
    assert (∀ c, files_get (document (on_document (classList_remove fileLabel "drag-over")
                                        (call c st))) n
                 = files_get (document st) n) as Hremove.
    { intros c. cbn [document on_document call]. unfold classList_remove.
      by apply files_get_update. }
    destruct dropped as [|file rest]; [by rewrite Hremove|].
    destruct (String.eqb (type file) "text/csv" || JSString.endsWith (name file) ".csv")
      eqn:Hcsv.
    + destruct (decide (fileInput = n)) as [->|Hn].
      * intros _. exists fileLabel, file, rest. split; [done|]. split; [done|].
        apply orb_true_iff in Hcsv. by rewrite String.eqb_eq, endsWith_spec in Hcsv.
      * rewrite files_dispatch_change. cbn [document on_document call].
        unfold files_get at 1, files_set. rewrite lookup_update_ne by done.
        fold (files_get (classList_remove fileLabel "drag-over" (document st)) n).
        unfold classList_remove. by rewrite files_get_update.
    + cbn [document on_document call]. unfold classList_remove.
      by rewrite files_get_update.
  - exfalso. apply Hne. simpl. unfold style_set. by apply files_get_update.
Qed.

Lemma deliver_files current e st n :
  files_get (document (Browser.deliver current e st)) n ≠ files_get (document st) n →
  ∃ fileLabel file rest,
    (current, fileLabel_drop n fileLabel) ∈ listeners st ∧ e = DropEvent (file :: rest)
    ∧ (type file = "text/csv" ∨ JSString.ends_in (name file) ".csv").
Proof.
  unfold Browser.deliver.
  apply (foldl_invariant
    (λ st', files_get (document st') n ≠ files_get (document st) n →
            ∃ fileLabel file rest,
              (current, fileLabel_drop n fileLabel) ∈ listeners st
              ∧ e = DropEvent (file :: rest)
              ∧ (type file = "text/csv" ∨ JSString.ends_in (name file) ".csv"))); [|done].
  intros [m l] st' [[Hm _] Hin]%elem_of_listeners_for Hst' Hne. simpl in *. subst m.
  destruct (decide (files_get (document st') n = files_get (document st) n)) as [Heq|Hne'];
    [|by apply Hst'].
  rewrite <- Heq in Hne.
  apply call_listener_files in Hne as (fileLabel & file & rest & -> & -> & Hcsv). eauto 10.
Qed.

Lemma files_elapse dt st n :
  files_get (document (Browser.elapse dt st)) n = files_get (document st) n.
Proof.
  unfold Browser.elapse. cbv zeta.
  apply (foldl_invariant (λ st', files_get (document st') n = files_get (document st) n));
    [|done].
  intros [t [b]] st' _ Hst'. cbn [callback Browser.run_timer document on_document].
  unfold style_set. by rewrite files_get_update.
Qed.

Lemma document_settle i outcome st : document (Browser.settle i outcome st) = document st.
Proof.
  unfold Browser.settle. destruct (pending st !! i) as [settings|]; [|done].
  destruct outcome as [json|].
  - destruct (Ajax.success settings) as [[]|]; [|done]. simpl.
    by destruct (init_csvTable_cases json (Browser.forget i st))
      as [(columns & len & _ & _ & _ & _ & ->) | [_ [-> | ->]]].
  - by destruct (Ajax.error settings) as [[]|].
Qed.

Lemma files_intersect entries st n :
  files_get (document (Browser.intersect entries st)) n = files_get (document st) n.
Proof.
  unfold Browser.intersect, Home.animate_entries.
  apply (foldl_invariant (λ st', files_get (document st') n = files_get (document st) n));
    [|done].
  intros [m b] st' _ Hst'. destruct b; [|done]. cbn [fst snd document on_document].
  unfold style_set. by rewrite files_get_update.
Qed.

(** The listeners of the script, and the elements they are on. *)
Lemma listeners_ready_elem d n l :
  (n, l) ∈ listeners (Home.ready (load d)) →
  match l with
  | fileInput_change fileLabel fileText =>
      getElementById d "csvFileInput" = Some n
      ∧ querySelector d Home.file_input_label = Some fileLabel
      ∧ querySelector d Home.file_text = Some fileText
  | fileLabel_dragover fileLabel | fileLabel_dragleave fileLabel =>
      querySelector d Home.file_input_label = Some n ∧ fileLabel = n
  | fileLabel_drop fileInput fileLabel =>
      querySelector d Home.file_input_label = Some n ∧ fileLabel = n
      ∧ getElementById d "csvFileInput" = Some fileInput
  | actionButton_click => querySelector d Home.btn_large = Some n
  end.
Proof.
  rewrite listeners_ready, action_button_listeners, elem_of_app. intros [Hin | Hin].
  - revert Hin. unfold Home.file_input_section. simpl.
    destruct (getElementById d "csvFileInput") as [fileInput|]; [|by intros ?%elem_of_nil].
    destruct (querySelector d Home.file_input_label) as [fileLabel|];
      [|by intros ?%elem_of_nil].
    destruct (querySelector d Home.file_text) as [fileText|]; [|by intros ?%elem_of_nil].
    simpl. rewrite !elem_of_cons, elem_of_nil.
    by intros [[= -> ->] | [[= -> ->] | [[= -> ->] | [[= -> ->] | []]]]].
  - destruct (querySelector d Home.btn_large) as [b|]; [|by apply elem_of_nil in Hin].
    by apply list_elem_of_singleton in Hin as [= -> ->].
Qed.

(** X15. The script writes the [files] of one element in one case.  In a
    page reached after the script has run, the [files] of an element
    change only when the user picks files in that element, or when the
    element is [#csvFileInput] and a list of files whose first is a CSV
    file is dropped on the label: no other event, no timer, no answer
    and no report of the observer changes or empties them. *)
Theorem files_change_by_choice_or_csv_drop (d : Document)
    (stimuli : list Browser.Stimulus) (s : Browser.Stimulus) (n : handle) :
  let st := Browser.run (Home.ready (load d)) stimuli in
  files_get (document (Browser.step st s)) n ≠ files_get (document st) n →
  (∃ fl, s = Browser.Choose n fl)
  ∨ (∃ fileLabel file rest,
       s = Browser.Deliver fileLabel (DropEvent (file :: rest))
       ∧ getElementById d "csvFileInput" = Some n
       ∧ querySelector d Home.file_input_label = Some fileLabel
       ∧ (type file = "text/csv" ∨ JSString.ends_in (name file) ".csv")).
Proof.
  intros st Hne. destruct s as [current e|input fl|dt|i outcome|entries].
  - right. apply deliver_files in Hne as (fileLabel & file & rest & Hin & -> & Hcsv).
    subst st. rewrite listeners_reached in Hin.
    apply listeners_ready_elem in Hin as (Hl & -> & Hi).
    exists current, file, rest. done.
  - left. destruct (decide (input = n)) as [->|Hn]; [by exists fl|]. exfalso.
    unfold Browser.step, Browser.choose in Hne.
    assert (files_get (document (on_document (files_set input fl) st)) n
            = files_get (document st) n) as Heq.
    { cbn [document on_document]. unfold files_get, files_set.
      by rewrite lookup_update_ne. }
    rewrite <- Heq in Hne. by apply deliver_files in Hne as (? & ? & ? & _ & [=] & _).
  - exfalso. apply Hne. apply files_elapse.
  - exfalso. apply Hne. unfold Browser.step. by rewrite document_settle.
  - exfalso. apply Hne. apply files_intersect.
Qed.

(** X16. The script listens in five places.  In a page reached after the
    script has run, an event that reaches an element changes the page
    only if it is a change event on [#csvFileInput], a dragover, a
    dragleave or a drop event on the first [.file-input-label], or a
    click on the first [.btn.large]: on every other element, a second
    [.btn.large] or label among them, and for every other type of event,
    the page stays as it is. *)
Theorem only_five_events_are_heard (d : Document) (stimuli : list Browser.Stimulus)
    (current : handle) (e : Event) :
  let st := Browser.run (Home.ready (load d)) stimuli in
  Browser.deliver current e st ≠ st →
  (getElementById d "csvFileInput" = Some current ∧ ∃ target, e = ChangeEvent target)
  ∨ (querySelector d Home.file_input_label = Some current
     ∧ (e = DragOverEvent ∨ e = DragLeaveEvent ∨ ∃ fl, e = DropEvent fl))
  ∨ (querySelector d Home.btn_large = Some current ∧ e = ClickEvent).
Proof.
  intros st Hne. unfold Browser.deliver in Hne.
  destruct (listeners_for current (event_type e) st) as [|[m l] others] eqn:Hfor; [done|].
  assert ((m, l) ∈ listeners_for current (event_type e) st) as Hin
    by (rewrite Hfor; by left).
  apply elem_of_listeners_for in Hin as [[Hm Htype] Hin]. simpl in *. subst m st.
  rewrite listeners_reached in Hin. apply listeners_ready_elem in Hin.
  destruct l, e as [target| | |dropped|]; try discriminate Htype.
  - left. destruct Hin as (Hi & _). eauto.
  - right. left. destruct Hin as (Hl & _). eauto.
  - right. left. destruct Hin as (Hl & _). eauto.
  - right. left. destruct Hin as (Hl & _). eauto 10.
  - right. right. eauto.
Qed.

(** X17. The test of the name is one of case.  Whatever the page, the
    drop listener refuses a file whose type is not [text/csv] and whose
    name ends in [.CSV], in capitals: it shows the alert and leaves the
    file input alone. *)
Theorem upper_case_extension_is_refused (fileInput fileLabel : handle)
    (prefix : string) (file : File) (rest : FileList) (st : Page) :
  name file = String.append prefix ".CSV" →
  type file ≠ "text/csv" →
  Home.fileLabel_drop_listener fileInput fileLabel (file :: rest) st
  = call (alert "Please select a CSV file.")
      (on_document (classList_remove fileLabel "drag-over")
         (call (preventDefault "drop") st)).
Proof.
  intros Hname Htype. unfold Home.fileLabel_drop_listener.
  apply String.eqb_neq in Htype. rewrite Htype, Hname.
  assert (JSString.endsWith (String.append prefix ".CSV") ".csv" = false) as ->; [|done].
  unfold JSString.endsWith. rewrite length_append.
  change (String.length ".CSV") with 4%nat. change (String.length ".csv") with 4%nat.
  destruct (Nat.ltb_spec (String.length prefix + 4) 4); [lia|].
  replace (String.length prefix + 4 - 4)%nat with (String.length prefix) by lia.
  pose proof (substring_append prefix ".CSV") as Hsuffix.
  change (String.length ".CSV") with 4%nat in Hsuffix. by rewrite Hsuffix.
Qed.

End heard.

(** ** The cards that come into view *)

Section cards_in_view.

Import DOM.

Lemma querySelectorAll_is_Some d s n :
  n ∈ querySelectorAll d s → is_Some (heap d !! n).
Proof.
  unfold querySelectorAll.
  intros ([m ancestors] & -> & [Hm _]%list_elem_of_filter)%list_elem_of_fmap.
  by eapply matches_is_Some.
Qed.

Lemma observed_reached d stimuli :
  observed (Browser.run (Home.ready (load d)) stimuli) = querySelectorAll d Home.stat_card.
Proof.
  rewrite <- observed_ready.
  by apply (reached_keeps d (λ st, observed st = observed (Home.ready (load d)))).
Qed.

(** X18. Every card is watched, and only the cards.  In a page reached
    after the script has run, a report of the observer that an element
    intersects gives the element the animation [slideInUp 0.6s ease-out]
    if the element is a [.stat-card] of the document the script ran on. *)
Theorem card_in_view_is_animated (d : Document) (stimuli : list Browser.Stimulus)
    (card : handle) :
  card ∈ querySelectorAll d Home.stat_card →
  let st := Browser.run (Home.ready (load d)) stimuli in
  observed st = querySelectorAll d Home.stat_card
  ∧ style_get (document (Browser.intersect [(card, true)] st)) card "animation"
    = "slideInUp 0.6s ease-out".
Proof.
  intros Hcard st. subst st. split; [apply observed_reached|].
  unfold Browser.intersect. rewrite filter_cons_True by (simpl; by rewrite observed_reached).
  rewrite filter_nil. unfold Home.animate_entries. cbn [foldl fst snd document on_document].
  apply style_get_style_set; [|done]. apply reached_is_Some.
  by eapply querySelectorAll_is_Some.
Qed.

End cards_in_view.

(** ** The sample pages, worked further *)

Section worked_further.

Import DOM.

(** The change listener on a label that came with a background colour
    of its own: the write of [background] resets it with the other
    properties of the family, which the model then no longer follows;
    the transform, which no shorthand sets, reads as before. *)
Example change_resets_background_color :
  let d := style_set 2 "backgroundColor" "red" Pages.upload in
  let st := Browser.run (Home.ready (load d)) [Browser.Choose 4 [Pages.sales_csv]] in
  style_get d 2 "backgroundColor" = "red"
  ∧ style_get (document st) 2 "background" = "var(--success-light)"
  ∧ style_get (document st) 2 "backgroundColor" = Derived
  ∧ style_get (document st) 2 "border-top-color" = Derived
  ∧ style_get (document st) 2 "transform" = "".
Proof. by vm_compute. Qed.

(** X1 on the upload page: a drag comes over the label. *)
Lemma only_label_classes_change_on_upload :
  let st := Browser.run (Home.ready (load Pages.upload)) [Browser.Choose 4 [Pages.sales_csv]] in
  let st' := Browser.step st (Browser.Deliver 2 DragOverEvent) in
  hasClass (document st') 2 "drag-over" ≠ hasClass (document st) 2 "drag-over"
  ∧ querySelector Pages.upload Home.file_input_label = Some 2
  ∧ "drag-over" ∈ script_classes.
Proof.
  intros st st'.
  assert (hasClass (document st') 2 "drag-over" ≠ hasClass (document st) 2 "drag-over")
    as Hne by (by vm_compute).
  split; [done|].
  apply (only_label_classes_change Pages.upload [Browser.Choose 4 [Pages.sales_csv]]
           (Browser.Deliver 2 DragOverEvent) 2 "drag-over").
  exact Hne.
Defined.

(** X3 on the upload page: the card comes into view, then the button is
    pressed and released. *)
Lemma animation_stays_on_upload :
  style_get (document (Browser.run (Home.ready (load Pages.upload))
                         [Browser.Intersect [(10, true)]])) 10 "animation"
  = "slideInUp 0.6s ease-out"
  ∧ style_get (document (Browser.run (Home.ready (load Pages.upload))
                           ([Browser.Intersect [(10, true)]]
                            ++ [Browser.Deliver 9 ClickEvent; Browser.Elapse 150;
                                Browser.Intersect [(10, false)]])))
              10 "animation"
    = "slideInUp 0.6s ease-out".
Proof.
  split; [by vm_compute|].
  apply (animation_stays Pages.upload [Browser.Intersect [(10, true)]]). by vm_compute.
Defined.

(** X5 on the upload page: two clicks, 100 milliseconds apart. *)
Lemma press_ends_on_upload :
  querySelector Pages.upload Home.btn_large = Some 9
  ∧ (let st := Browser.elapse 150
                 (Browser.run (Home.ready (load Pages.upload))
                    [Browser.Deliver 9 ClickEvent; Browser.Elapse 100;
                     Browser.Deliver 9 ClickEvent]) in
     timers st = []
     ∧ (style_get (document st) 9 "transform" = ""
        ∨ style_get (document st) 9 "transform" = style_get Pages.upload 9 "transform")).
Proof.
  split; [by vm_compute|].
  apply (press_ends_within_150ms Pages.upload 9). by vm_compute.
Defined.

(** X9 on the upload page, whose table the server rendered. *)
Lemma widgets_look_the_same_on_upload :
  DataTable (DataTables.of_element 8) Home.prerendered_options
    ∈ log (Browser.run (Home.ready (load Pages.upload)) [Browser.Deliver 9 ClickEvent])
  ∧ DataTables.pageLength Home.prerendered_options = Some 5%Z
  ∧ DataTables.lengthMenu Home.prerendered_options = Some [5; 10; 20; 50]%Z
  ∧ DataTables.autoWidth Home.prerendered_options = Some false
  ∧ DataTables.responsive Home.prerendered_options = Some true
  ∧ DataTables.language Home.prerendered_options = Some Home.language
  ∧ DataTables.dom Home.prerendered_options = Some Home.dom_layout
  ∧ ((∃ tableEl, Home.find_tableEl Pages.upload = Some tableEl
                 ∧ Home.parent_is_csvTableContainer Pages.upload tableEl = true
                 ∧ DataTables.of_element 8 = DataTables.of_element tableEl
                 ∧ Home.prerendered_options = Home.prerendered_options)
     ∨ (∃ columns, DataTables.of_element 8 = DataTables.of_selector "#csvTable"
                   ∧ Home.prerendered_options = Home.serverSide_options columns)).
Proof.
  assert (DataTable (DataTables.of_element 8) Home.prerendered_options
            ∈ log (Browser.run (Home.ready (load Pages.upload))
                     [Browser.Deliver 9 ClickEvent])) as Hin
    by (vm_compute; left).
  split; [done|].
  apply (widgets_look_the_same Pages.upload [Browser.Deliver 9 ClickEvent]). exact Hin.
Defined.


(** X11 on the upload page, after the user has picked a file and taken
    it back: the summary still names the file. *)
Lemma cleared_input_keeps_summary_on_upload :
  getElementById Pages.upload "csvFileInput" = Some 4
  ∧ querySelector Pages.upload Home.file_input_label = Some 2
  ∧ querySelector Pages.upload Home.file_text = Some 3
  ∧ (let st := Browser.run (Home.ready (load Pages.upload))
                           [Browser.Choose 4 [Pages.sales_csv]; Browser.Choose 4 []] in
     let st' := Browser.deliver 4 (ChangeEvent 4) st in
     head (files_get (document st) 4) = None
     ∧ textContent (document st) 6 = "sales.csv"
     ∧ (∀ n, n ≠ 3 → n ≠ 2 → heap (document st') !! n = heap (document st) !! n)
     ∧ (∀ n s, n ≠ 3 → n ≠ 2 →
               holds_text (document st) n s → textContent (document st') n = s)).
Proof.
  do 3 (split; [by vm_compute|]). intros st st'.
  split; [by vm_compute|]. split; [by vm_compute|].
  apply (cleared_input_keeps_summary Pages.upload 4 2 3); by vm_compute.
Defined.

(** X12 on the upload page. *)
Lemma drag_that_leaves_on_upload :
  getElementById Pages.upload "csvFileInput" = Some 4
  ∧ querySelector Pages.upload Home.file_input_label = Some 2
  ∧ querySelector Pages.upload Home.file_text = Some 3
  ∧ (let st := Browser.run (Home.ready (load Pages.upload))
                           [Browser.Choose 4 [Pages.sales_csv]] in
     let st' := Browser.deliver 2 DragLeaveEvent (Browser.deliver 2 DragOverEvent st) in
     hasClass (document st) 2 "drag-over" = false
     ∧ document st' = document st
     ∧ log st' = log st ++ [preventDefault "dragover"; preventDefault "dragleave"]).
Proof.
  do 3 (split; [by vm_compute|]). intros st st'. split; [by vm_compute|].
  apply (drag_that_leaves_changes_nothing Pages.upload 4 2 3); by vm_compute.
Defined.

(** X13 on the upload page. *)
Lemma dragover_again_on_upload :
  getElementById Pages.upload "csvFileInput" = Some 4
  ∧ querySelector Pages.upload Home.file_input_label = Some 2
  ∧ querySelector Pages.upload Home.file_text = Some 3
  ∧ (let st := Browser.deliver 2 DragOverEvent
                 (Browser.run (Home.ready (load Pages.upload)) []) in
     document (Browser.deliver 2 DragOverEvent st) = document st).
Proof.
  do 3 (split; [by vm_compute|]).
  apply (dragover_again_changes_nothing Pages.upload 4 2 3); by vm_compute.
Defined.

(** X14 on the upload page: a file that is a CSV by its name only is
    dropped in the middle of a drag. *)
Lemma drop_of_csv_file_is_a_choice_on_upload :
  getElementById Pages.upload "csvFileInput" = Some 4
  ∧ querySelector Pages.upload Home.file_input_label = Some 2
  ∧ querySelector Pages.upload Home.file_text = Some 3
  ∧ (type Pages.export_csv = "text/csv"
     ∨ JSString.ends_in (name Pages.export_csv) ".csv")
  ∧ (let st := Browser.run (Home.ready (load Pages.upload))
                           [Browser.Deliver 2 DragOverEvent] in
     document (Browser.deliver 2 (DropEvent [Pages.export_csv]) st)
     = document (Browser.choose 4 [Pages.export_csv]
                   (on_document (classList_remove 2 "drag-over") st))).
Proof.
  do 3 (split; [by vm_compute|]). split; [right; by exists "export"|].
  apply (drop_of_csv_file_is_a_choice Pages.upload 4 2 3); try by vm_compute.
  right. by exists "export".
Defined.

(** X15 on the upload page: the user picks a file. *)
Lemma files_change_on_upload :
  let st := Browser.run (Home.ready (load Pages.upload)) [] in
  let s := Browser.Choose 4 [Pages.sales_csv] in
  files_get (document (Browser.step st s)) 4 ≠ files_get (document st) 4
  ∧ ((∃ fl, s = Browser.Choose 4 fl)
     ∨ (∃ fileLabel file rest,
          s = Browser.Deliver fileLabel (DropEvent (file :: rest))
          ∧ getElementById Pages.upload "csvFileInput" = Some 4
          ∧ querySelector Pages.upload Home.file_input_label = Some fileLabel
          ∧ (type file = "text/csv" ∨ JSString.ends_in (name file) ".csv"))).
Proof.
  intros st s.
  assert (files_get (document (Browser.step st s)) 4 ≠ files_get (document st) 4) as Hne
    by (by vm_compute).
  split; [done|].
  apply (files_change_by_choice_or_csv_drop Pages.upload [] s 4). exact Hne.
Defined.

(** X16 on the upload page: a click on the button. *)
Lemma only_five_events_on_upload :
  let st := Browser.run (Home.ready (load Pages.upload)) [] in
  Browser.deliver 9 ClickEvent st ≠ st
  ∧ ((getElementById Pages.upload "csvFileInput" = Some 9
      ∧ ∃ target, ClickEvent = ChangeEvent target)
     ∨ (querySelector Pages.upload Home.file_input_label = Some 9
        ∧ (ClickEvent = DragOverEvent ∨ ClickEvent = DragLeaveEvent
           ∨ ∃ fl, ClickEvent = DropEvent fl))
     ∨ (querySelector Pages.upload Home.btn_large = Some 9 ∧ ClickEvent = ClickEvent)).
Proof.
  intros st.
  assert (Browser.deliver 9 ClickEvent st ≠ st) as Hne
    by (intros H%(f_equal timers); by vm_compute in H).
  split; [done|].
  apply (only_five_events_are_heard Pages.upload [] 9 ClickEvent). exact Hne.
Defined.

(** X17 on the upload page: a file named in capitals is dropped. *)
Lemma upper_case_extension_on_upload :
  let file := {| name := "DATA.CSV"; type := "application/vnd.ms-excel" |} in
  let st := Home.ready (load Pages.upload) in
  name file = String.append "DATA" ".CSV"
  ∧ type file ≠ "text/csv"
  ∧ Home.fileLabel_drop_listener 4 2 [file] st
    = call (alert "Please select a CSV file.")
        (on_document (classList_remove 2 "drag-over") (call (preventDefault "drop") st)).
Proof.
  intros file st. split; [done|]. split; [done|].
  by apply (upper_case_extension_is_refused 4 2 "DATA" file [] st).
Defined.

(** X18 on the upload page. *)
Lemma card_in_view_on_upload :
  10 ∈ querySelectorAll Pages.upload Home.stat_card
  ∧ (let st := Browser.run (Home.ready (load Pages.upload))
                           [Browser.Deliver 9 ClickEvent] in
     observed st = querySelectorAll Pages.upload Home.stat_card
     ∧ style_get (document (Browser.intersect [(10, true)] st)) 10 "animation"
       = "slideInUp 0.6s ease-out").
Proof.
  assert (10 ∈ querySelectorAll Pages.upload Home.stat_card) as Hcard
    by (vm_compute; left).
  split; [done|].
  apply (card_in_view_is_animated Pages.upload [Browser.Deliver 9 ClickEvent] 10). exact Hcard.
Defined.

End worked_further.
